(** * GlamorousDesi storefront: cart store, catalog query validation and
      checkout orchestration.

    A shallow embedding of the cart store ([useCartStore] and its helpers),
    of the catalog endpoint's query validation ([ProductQuerySchema], [GET])
    and of the checkout endpoint ([POST], [calculateShipping]), followed by
    the properties of the cart-and-checkout consistency workflow.

    Conventions of the embedding:
    - a JS [number] holding a count (quantity, stock) is a [Z]; a price the
      cart displays is an exact rational [Q]; a [Decimal] column read from the
      database is an exact rational; the amounts the checkout endpoint
      computes from them, and the catalog's discount percentage, are IEEE 754
      binary64 values ([Js.number]), with the rounding of each operation; an
      order holds the amounts as the handler passes them to the write;
    - an optional field ([variantId?: string]) is an [option];
    - the store's [set]/[get] pair is explicit state passing: an action takes
      the current [CartState] and returns the next one together with the
      effects it fired (toasts, timers);
    - awaited calls that may throw are driven by an explicit environment that
      says which of them fails and with which thrown value. *)

From Stdlib Require Import ZArith QArith Qround Lia Lqa Ascii String SpecFloat.
From stdpp Require Import base option list strings pretty gmap.

Close Scope Q_scope.
#[local] Set Warnings "-register-all".
Open Scope string_scope.
Open Scope list_scope.
Open Scope Z_scope.

(** ** Cart store (client side) *)

Module Cart.

(** [Record<string, any>]: a key/value bag in insertion order.  Values are
    kept as strings. *)
Definition Customizations : Type := list (string * string).

(** [Omit<CartItem, 'id'>] *)
Record OmitId : Type := {
  productId : string;
  variantId : option string;
  name : string;
  image : string;
  price : Q;
  quantity : Z;
  size : option string;
  color : option string;
  customizations : option Customizations;
  maxQuantity : Z;
  sku : string
}.

(** [CartItem]: the fields above plus the locally generated identity. *)
Record CartItem : Type := {
  id : string;
  fields :> OmitId
}.

Record CartState : Type := {
  items : list CartItem;
  isOpen : bool
}.

(** What an action does besides changing the state. *)
Inductive Effect : Type :=
| ToastError (msg : string)
| ToastSuccess (msg : string)
| SetTimeoutCloseCart (ms : Z).

(** *** [JSON.stringify] on a customization payload *)

Definition dquote : string := String "034"%char EmptyString.

Fixpoint escape (s : string) : string :=
  match s with
  | EmptyString => EmptyString
  | String c rest =>
      if bool_decide (c = "034"%char) || bool_decide (c = "\"%char)
      then String "\"%char (String c (escape rest))
      else String c (escape rest)
  end.

Definition quoted (s : string) : string := dquote +:+ escape s +:+ dquote.

Fixpoint stringify_members (kvs : Customizations) : string :=
  match kvs with
  | [] => ""
  | [(k, v)] => quoted k +:+ ":" +:+ quoted v
  | (k, v) :: rest => quoted k +:+ ":" +:+ quoted v +:+ "," +:+ stringify_members rest
  end.

(** [JSON.stringify(undefined)] is [undefined]; an object is serialized in
    its own key order. *)
Definition JSON_stringify (c : option Customizations) : option string :=
  match c with
  | None => None
  | Some kvs => Some ("{" +:+ stringify_members kvs +:+ "}")
  end.

(** *** Array helpers of the source *)

(** [Array.prototype.findIndex]: [None] stands for the result -1, so that
    [existingItemIndex > -1] is the [Some] case. *)
Fixpoint findIndex {A : Type} (p : A → bool) (l : list A) : option nat :=
  match l with
  | [] => None
  | x :: rest => if p x then Some 0%nat else S <$> findIndex p rest
  end.

(** [Array.prototype.find]: [None] stands for [undefined]. *)
Fixpoint find {A : Type} (p : A → bool) (l : list A) : option A :=
  match l with
  | [] => None
  | x :: rest => if p x then Some x else find p rest
  end.

(** *** State updates *)

(** [{ ...item, quantity }] *)
Definition with_quantity (item : CartItem) (q : Z) : CartItem :=
  {| id := id item;
     fields := {| productId := productId item; variantId := variantId item;
                  name := name item; image := image item; price := price item;
                  quantity := q;
                  size := size item; color := color item;
                  customizations := customizations item;
                  maxQuantity := maxQuantity item; sku := sku item |} |}.

(** [set({ items })], [set({ isOpen })] *)
Definition set_items (l : list CartItem) (s : CartState) : CartState :=
  {| items := l; isOpen := isOpen s |}.

Definition set_isOpen (b : bool) (s : CartState) : CartState :=
  {| items := items s; isOpen := b |}.

Definition initial : CartState := {| items := []; isOpen := false |}.

(** The toast text of a refused quantity. *)
Definition only_available (n : Z) : string :=
  "Only " +:+ pretty n +:+ " items available in stock".

Definition CapacityExceeded (n : Z) : Effect := ToastError (only_available n).

(** The predicate handed to [findIndex] by [addItem]. *)
Definition same_entry (newItem : OmitId) (item : CartItem) : bool :=
  bool_decide (productId item = productId newItem)
  && bool_decide (variantId item = variantId newItem)
  && bool_decide (JSON_stringify (customizations item)
                  = JSON_stringify (customizations newItem)).

Definition openCart (s : CartState) : CartState := set_isOpen true s.
Definition closeCart (s : CartState) : CartState := set_isOpen false s.
Definition toggleCart (s : CartState) : CartState := set_isOpen (negb (isOpen s)) s.

(** [addItem]; [uuid] is the value [crypto.randomUUID()] returns.  The index
    [findIndex] returns is always inside the array ([findIndex_find] below),
    so the inner [None] branch is never taken. *)
Definition addItem (uuid : string) (newItem : OmitId) (state : CartState)
  : CartState * list Effect :=
  match findIndex (same_entry newItem) (items state) with
  | Some existingItemIndex =>
      match (items state !! existingItemIndex : option CartItem) with
      | Some existingItem =>
          let newQuantity := quantity existingItem + quantity newItem in
          if newQuantity >? maxQuantity existingItem
          then (state, [CapacityExceeded (maxQuantity existingItem)])
          else
            (openCart
               (set_items
                  (imap (λ index item,
                         if bool_decide (index = existingItemIndex)
                         then with_quantity item newQuantity
                         else item)
                        (items state))
                  state),
             [ToastSuccess "Updated quantity in cart"; SetTimeoutCloseCart 3000])
      | None => (state, [])
      end
  | None =>
      if quantity newItem >? maxQuantity newItem
      then (state, [CapacityExceeded (maxQuantity newItem)])
      else
        let cartItem := {| id := uuid; fields := newItem |} in
        (openCart (set_items (items state ++ [cartItem]) state),
         [ToastSuccess (name newItem +:+ " added to cart"); SetTimeoutCloseCart 3000])
  end.

Definition removeItem (itemId : string) (state : CartState)
  : CartState * list Effect :=
  let item := find (λ item, bool_decide (id item = itemId)) (items state) in
  (set_items (filter (λ item, id item ≠ itemId) (items state)) state,
   match item with
   | Some item => [ToastSuccess (name item +:+ " removed from cart")]
   | None => []
   end).

Definition updateQuantity (itemId : string) (quantity' : Z) (state : CartState)
  : CartState * list Effect :=
  if quantity' <=? 0 then removeItem itemId state
  else
    match find (λ item, bool_decide (id item = itemId)) (items state) with
    | None => (state, [])
    | Some item =>
        if quantity' >? maxQuantity item
        then (state, [CapacityExceeded (maxQuantity item)])
        else
          (set_items
             (map (λ item, if bool_decide (id item = itemId)
                           then with_quantity item quantity'
                           else item)
                  (items state))
             state,
           [])
    end.

Definition clearCart (state : CartState) : CartState * list Effect :=
  (set_items [] state, [ToastSuccess "Cart cleared"]).

(** *** Derived queries *)

Definition getTotalItems (state : CartState) : Z :=
  fold_left (λ total (item : CartItem), total + quantity item) (items state) 0.


(** *** Persistence: [persist] with [partialize] and JSON storage *)

(** The value tree that [JSON.stringify] writes and [JSON.parse] reads. *)
Inductive Json : Type :=
| JNull
| JBool (b : bool)
| JNumber (q : Q)
| JString (s : string)
| JArray (elements : list Json)
| JObject (members : list (string * Json)).

(** [partialize: (state) => ({ items: state.items })] *)
Record Persisted : Type := { persisted_items : list CartItem }.

Definition partialize (state : CartState) : Persisted :=
  {| persisted_items := items state |}.

(** An optional property is written only when it is defined. *)
Definition member {A : Type} (key : string) (enc : A → Json) (v : option A)
  : list (string * Json) :=
  match v with
  | Some a => [(key, enc a)]
  | None => []
  end.

Definition customizations_to_json (c : Customizations) : Json :=
  JObject (map (λ kv, (kv.1, JString kv.2)) c).

Definition item_to_json (item : CartItem) : Json :=
  JObject
    ([("productId", JString (productId item))]
     ++ member "variantId" JString (variantId item)
     ++ [("name", JString (name item));
         ("image", JString (image item));
         ("price", JNumber (price item));
         ("quantity", JNumber (inject_Z (quantity item)))]
     ++ member "size" JString (size item)
     ++ member "color" JString (color item)
     ++ member "customizations" customizations_to_json (customizations item)
     ++ [("maxQuantity", JNumber (inject_Z (maxQuantity item)));
         ("sku", JString (sku item));
         ("id", JString (id item))]).

(** What the persist middleware hands to storage:
    [{ state: partialize(state), version: 0 }]. *)
Definition serialize (p : Persisted) : Json :=
  JObject [("state", JObject [("items", JArray (map item_to_json (persisted_items p)))]);
           ("version", JNumber 0)].

(** Property access on a parsed object. *)
Definition get (key : string) (members : list (string * Json)) : option Json :=
  snd <$> find (λ kv, String.eqb kv.1 key) members.

Definition as_string (j : Json) : option string :=
  match j with JString s => Some s | _ => None end.

Definition as_number (j : Json) : option Q :=
  match j with JNumber q => Some q | _ => None end.

Definition as_integer (j : Json) : option Z :=
  match j with
  | JNumber q => if (Qden q =? 1)%positive then Some (Qnum q) else None
  | _ => None
  end.

Definition as_customizations (j : Json) : option Customizations :=
  match j with
  | JObject members => mapM (λ kv, pair kv.1 <$> as_string kv.2) members
  | _ => None
  end.

(** A required property, and an optional one (absent reads as
    [undefined]). *)
Definition required {A : Type} (key : string) (dec : Json → option A)
           (members : list (string * Json)) : option A :=
  get key members ≫= dec.

Definition optional {A : Type} (key : string) (dec : Json → option A)
           (members : list (string * Json)) : option (option A) :=
  match get key members with
  | None => Some None
  | Some j => Some <$> dec j
  end.

Definition item_of_json (j : Json) : option CartItem :=
  match j with
  | JObject o =>
      productId ← required "productId" as_string o;
      variantId ← optional "variantId" as_string o;
      name ← required "name" as_string o;
      image ← required "image" as_string o;
      price ← required "price" as_number o;
      quantity ← required "quantity" as_integer o;
      size ← optional "size" as_string o;
      color ← optional "color" as_string o;
      customizations ← optional "customizations" as_customizations o;
      maxQuantity ← required "maxQuantity" as_integer o;
      sku ← required "sku" as_string o;
      id ← required "id" as_string o;
      Some {| id := id;
              fields := {| productId := productId; variantId := variantId;
                           name := name; image := image; price := price;
                           quantity := quantity; size := size; color := color;
                           customizations := customizations;
                           maxQuantity := maxQuantity; sku := sku |} |}
  | _ => None
  end.

Definition deserialize (j : Json) : option Persisted :=
  match j with
  | JObject top =>
      match get "state" top with
      | Some (JObject st) =>
          match get "items" st with
          | Some (JArray elements) =>
              l ← mapM item_of_json elements;
              Some {| persisted_items := l |}
          | _ => None
          end
      | _ => None
      end
  | _ => None
  end.

(** The middleware's default merge: [{ ...currentState, ...persistedState }]. *)
Definition merge (p : Persisted) (current : CartState) : CartState :=
  {| items := persisted_items p; isOpen := isOpen current |}.

(** What storage holds after a state change. *)
Definition persist_write (state : CartState) : Json :=
  serialize (partialize state).

(** Store creation on a later load: the creator's initial state, merged
    with whatever storage holds under the store's key. *)
Definition rehydrate (stored : option Json) : CartState :=
  match stored ≫= deserialize with
  | Some p => merge p initial
  | None => initial
  end.

(** *** Shipping helper of the cart *)

Definition calculateShipping (totalPrice : Q) : Q :=
  if Qle_bool 150 totalPrice then 0%Q
  else if Qle_bool 100 totalPrice then 9.99%Q
  else if Qle_bool 50 totalPrice then 14.99%Q
  else 19.99%Q.

Definition calculateTax (subtotal : Q) (state : string) : Q :=
  let taxRates : list (string * Q) :=
    [("CA", 0.0875%Q); ("NY", 0.08%Q); ("TX", 0.0625%Q); ("FL", 0.06%Q); ("WA", 0.065%Q)] in
  let rate := default 0.07%Q (snd <$> find (λ kv, String.eqb kv.1 state) taxRates) in
  (subtotal * rate)%Q.

(** *** [validateCartItem] on a [Partial<CartItem>] *)

Record PartialItem : Type := {
  partial_productId : option string;
  partial_name : option string;
  partial_price : option Q;
  partial_quantity : option Z;
  partial_maxQuantity : option Z
}.

(** JS truthiness of an optional string and of an optional number. *)
Definition truthy_string (v : option string) : bool :=
  match v with Some s => negb (String.eqb s "") | None => false end.

Definition truthy_Z (v : option Z) : bool :=
  match v with Some z => negb (z =? 0) | None => false end.

Definition truthy_Q (v : option Q) : bool :=
  match v with Some q => negb (Qeq_bool q 0) | None => false end.

Definition validateCartItem (item : PartialItem) : list string :=
  (if negb (truthy_string (partial_productId item)) then ["Product ID is required"] else [])
  ++ (if negb (truthy_string (partial_name item)) then ["Product name is required"] else [])
  ++ (if negb (truthy_Q (partial_price item))
         || from_option (λ p, Qle_bool p 0) false (partial_price item)
      then ["Valid price is required"] else [])
  ++ (if negb (truthy_Z (partial_quantity item))
         || from_option (λ q, q <=? 0) false (partial_quantity item)
      then ["Valid quantity is required"] else [])
  ++ (match partial_maxQuantity item, partial_quantity item with
      | Some m, Some q =>
          if negb (m =? 0) && negb (q =? 0) && (q >? m)
          then ["Quantity cannot exceed " +:+ pretty m] else []
      | _, _ => []
      end).

Definition as_partial (item : OmitId) : PartialItem :=
  {| partial_productId := Some (productId item);
     partial_name := Some (name item);
     partial_price := Some (price item);
     partial_quantity := Some (quantity item);
     partial_maxQuantity := Some (maxQuantity item) |}.

(** *** The quantity invariant of the data model *)

Definition quantity_in_bounds (item : CartItem) : Prop :=
  1 ≤ quantity item ∧ quantity item ≤ maxQuantity item.

Definition cart_invariant (state : CartState) : Prop :=
  Forall quantity_in_bounds (items state).

(** The dedup tuple (product, variant, serialized customizations). *)
Definition same_tuple (a b : OmitId) : Prop :=
  productId a = productId b
  ∧ variantId a = variantId b
  ∧ JSON_stringify (customizations a) = JSON_stringify (customizations b).

(** A run of [addItem] calls, each with the identity generated for it. *)
Fixpoint addItems (calls : list (string * OmitId)) (state : CartState) : CartState :=
  match calls with
  | [] => state
  | (uuid, newItem) :: rest => addItems rest (addItem uuid newItem state).1
  end.

(** Running totals of the requested quantities: the total after each call. *)
Fixpoint running_totals (acc : Z) (qs : list Z) : list Z :=
  match qs with
  | [] => []
  | q :: rest => (acc + q) :: running_totals (acc + q) rest
  end.

Definition sum_quantities (qs : list Z) : Z := fold_right Z.add 0 qs.

(** *** Queries by product and variant *)

(** The predicate of [getItemCount] and [hasItem]:
    [item.productId === productId && item.variantId === variantId]. *)
Definition same_product (pid : string) (vid : option string) (item : CartItem) : bool :=
  bool_decide (productId item = pid) && bool_decide (variantId item = vid).

Definition getItemCount (pid : string) (vid : option string) (state : CartState) : Z :=
  fold_left (λ total (item : CartItem), total + quantity item)
            (List.filter (same_product pid vid) (items state)) 0.

Definition hasItem (pid : string) (vid : option string) (state : CartState) : bool :=
  existsb (same_product pid vid) (items state).

(** *** Further notions used to state properties of the store *)

(** The key [addItem] compares entries by. *)
Definition tuple_key (item : OmitId) : string * option string * option string :=
  (productId item, variantId item, JSON_stringify (customizations item)).

(** No two entries of the cart share a dedup tuple. *)
Definition distinct_tuples (state : CartState) : Prop :=
  NoDup (map (λ item : CartItem, tuple_key item) (items state)).

(** No two entries of the cart share an identity. *)
Definition unique_ids (state : CartState) : Prop :=
  NoDup (map id (items state)).

(** Sum of the quantities of a list of entries. *)
Definition total_quantity (l : list CartItem) : Z :=
  fold_right (λ (item : CartItem) acc, quantity item + acc) 0 l.


End Cart.

(** ** Catalog endpoint: query validation *)

Module Catalog.

(** A JS [number] as the parsers produce it. *)
Inductive JsNumber : Type :=
| NaN
| Finite (q : Q)
| Infinity (negative : bool).

(** *** [parseInt] and [parseFloat] *)

Definition is_whitespace (c : ascii) : bool :=
  bool_decide (c ∈ [" "%char; "009"%char; "010"%char; "011"%char; "012"%char; "013"%char]).

Fixpoint trim_start (s : string) : string :=
  match s with
  | String c rest => if is_whitespace c then trim_start rest else s
  | EmptyString => s
  end.

(** An optional sign: whether it is a minus, and what follows it. *)
Definition take_sign (s : string) : bool * string :=
  match s with
  | String "-"%char rest => (true, rest)
  | String "+"%char rest => (false, rest)
  | _ => (false, s)
  end.

Definition digit_value (radix : Z) (c : ascii) : option Z :=
  let n := Z.of_nat (nat_of_ascii c) in
  let v := if (48 <=? n) && (n <=? 57) then Some (n - 48)
           else if (97 <=? n) && (n <=? 122) then Some (n - 87)
           else if (65 <=? n) && (n <=? 90) then Some (n - 55)
           else None in
  v ≫= λ d, if d <? radix then Some d else None.

(** The longest prefix of digits in the radix, and what follows it. *)
Fixpoint take_digits (radix : Z) (s : string) : list Z * string :=
  match s with
  | String c rest =>
      match digit_value radix c with
      | Some d => let r := take_digits radix rest in (d :: r.1, r.2)
      | None => ([], s)
      end
  | EmptyString => ([], s)
  end.

Definition digits_to_Z (radix : Z) (ds : list Z) : Z :=
  fold_left (λ acc d, acc * radix + d) ds 0.

Definition signed (negative : bool) (q : Q) : Q :=
  if negative then (- q)%Q else q.

Definition parseInt (input : string) : JsNumber :=
  let '(negative, s) := take_sign (trim_start input) in
  let '(radix, s) :=
    match s with
    | String "0"%char (String "x"%char rest) => (16, rest)
    | String "0"%char (String "X"%char rest) => (16, rest)
    | _ => (10, s)
    end in
  match (take_digits radix s).1 with
  | [] => NaN
  | ds => Finite (signed negative (inject_Z (digits_to_Z radix ds)))
  end.

Definition parseFloat (input : string) : JsNumber :=
  let '(negative, s) := take_sign (trim_start input) in
  if String.prefix "Infinity" s then Infinity negative
  else
    let '(int_part, s1) := take_digits 10 s in
    let '(frac_part, s2) :=
      match s1 with
      | String "."%char rest => take_digits 10 rest
      | _ => ([], s1)
      end in
    match (int_part ++ frac_part)%list with
    | [] => NaN
    | ds =>
        let mantissa :=
          (inject_Z (digits_to_Z 10 ds) / inject_Z (10 ^ Z.of_nat (length frac_part)))%Q in
        let exponent :=
          match s2 with
          | String c rest =>
              if bool_decide (c = "e"%char) || bool_decide (c = "E"%char)
              then
                let '(eneg, r) := take_sign rest in
                let e := digits_to_Z 10 (take_digits 10 r).1 in
                if eneg then - e else e
              else 0
          | EmptyString => 0
          end in
        Finite (signed negative (mantissa * Qpower 10 exponent)%Q)
    end.

(** *** [ProductQuerySchema] *)

Inductive SortBy : Type := featured | price_asc | price_desc | by_name | newest.

Definition sortBy_values : list (string * SortBy) :=
  [("featured", featured); ("price-asc", price_asc); ("price-desc", price_desc);
   ("name", by_name); ("newest", newest)].

(** [z.enum([...])] on a string. *)
Definition enum_sortBy (v : string) : option SortBy :=
  snd <$> Cart.find (λ kv, String.eqb kv.1 v) sortBy_values.

Record Query : Type := {
  page : JsNumber;
  limit : JsNumber;
  category : option string;
  search : option string;
  minPrice : option JsNumber;
  maxPrice : option JsNumber;
  occasion : option string;
  fabric : option string;
  color : option string;
  size : option string;
  sortBy : SortBy;
  inStock : bool
}.

Record ZodIssue : Type := {
  code : string;
  path : string;
  received : string
}.

Definition ZodError : Type := list ZodIssue.

(** [val || fallback] and [val ? f(val) : undefined] on an optional
    string: the empty string is falsy. *)
Definition or_else (val : option string) (fallback : string) : string :=
  match val with
  | Some s => if String.eqb s "" then fallback else s
  | None => fallback
  end.

Definition when_truthy {A : Type} (val : option string) (f : string → A) : option A :=
  match val with
  | Some s => if String.eqb s "" then None else Some (f s)
  | None => None
  end.

(** [Object.fromEntries(url.searchParams.entries())]: a later entry with
    the same key overwrites an earlier one. *)
Definition fromEntries (entries : list (string * string)) : gmap string string :=
  fold_left (λ m kv, <[kv.1 := kv.2]> m) entries ∅.

(** [ProductQuerySchema.parse]: every value of [queryParams] is a string,
    so [z.string().optional()] accepts each field; the transforms cannot
    raise an issue; only the enum can. *)
Definition ProductQuerySchema_parse (queryParams : gmap string string)
  : ZodError + Query :=
  let sort :=
    match queryParams !! "sortBy" with
    | None => inr featured
    | Some v =>
        match enum_sortBy v with
        | Some sb => inr sb
        | None => inl [{| code := "invalid_enum_value"; path := "sortBy"; received := v |}]
        end
    end in
  match sort with
  | inl issues => inl issues
  | inr sb =>
      inr {| page := parseInt (or_else (queryParams !! "page") "1");
             limit := parseInt (or_else (queryParams !! "limit") "12");
             category := queryParams !! "category";
             search := queryParams !! "search";
             minPrice := when_truthy (queryParams !! "minPrice") parseFloat;
             maxPrice := when_truthy (queryParams !! "maxPrice") parseFloat;
             occasion := queryParams !! "occasion";
             fabric := queryParams !! "fabric";
             color := queryParams !! "color";
             size := queryParams !! "size";
             sortBy := sb;
             inStock := bool_decide (queryParams !! "inStock" = Some "true") |}
  end.

(** *** [GET] *)

(** The page the database layer yields for a parsed query: identifiers of
    the shaped products and the total count. *)
Record Listing : Type := {
  products : list string;
  totalCount : Z
}.

Inductive Body : Type :=
| InvalidQueryParameters (details : ZodError)
| FailedToFetchProducts
| Products (listing : Listing) (filters : Query).

Record Response : Type := {
  status : Z;
  body : Body
}.

(** [GET]: [run_query q] is what the two awaited database calls and the
    shaping of their rows come to for the parsed query [q]; [None] when
    any of them throws. *)
Definition GET (run_query : Query → option Listing)
           (searchParams : list (string * string)) : Response :=
  match ProductQuerySchema_parse (fromEntries searchParams) with
  | inl zodError =>
      {| status := 400; body := InvalidQueryParameters zodError |}
  | inr q =>
      match run_query q with
      | Some listing => {| status := 200; body := Products listing q |}
      | None => {| status := 500; body := FailedToFetchProducts |}
      end
  end.

(** The documented values of [sortBy]. *)
Definition sortBy_names : list string :=
  ["featured"; "price-asc"; "price-desc"; "name"; "newest"].

(** The documented shape of the numeric parameters. *)
Definition is_numeric (v : string) : bool :=
  match parseFloat v with NaN => false | _ => true end.

Definition page_at_least_1 (v : string) : bool :=
  match parseInt v with
  | Finite q => Qle_bool 1 q
  | _ => false
  end.

End Catalog.

(** ** JS numbers *)

Module Js.

(** A JS [number]: an IEEE 754 binary64 value, with the Standard Library's
    specification of its arithmetic (round to nearest, ties to even). *)
Definition number : Type := spec_float.

Definition prec : Z := 53.
Definition emax : Z := 1024.

(** The number an integer literal or an integer-valued JSON number
    denotes. *)
Definition of_Z (z : Z) : number := binary_normalize prec emax z 0 false.

Definition zero : number := of_Z 0.

(** [a + b], [a - b], [a * b], [a / b] *)
Definition add : number → number → number := SFadd prec emax.
Definition sub : number → number → number := SFsub prec emax.
Definition mul : number → number → number := SFmul prec emax.
Definition div : number → number → number := SFdiv prec emax.

(** [a > b]; false when either side is [NaN]. *)
Definition gt (a b : number) : bool := SFltb b a.

(** [Decimal.prototype.toNumber], and the number a decimal literal such as
    [9.99] denotes: the double nearest to the decimal (numerator and
    denominator below 2^53, as for every [Decimal(10,2)]). *)
Definition toNumber (d : Q) : number :=
  div (of_Z (Qnum d)) (of_Z (Zpos (Qden d))).

(** The rational a finite number is. *)
Definition exact (x : number) : option Q :=
  match x with
  | S754_zero _ => Some 0%Q
  | S754_finite negative m e =>
      Some (if negative then - (inject_Z (Zpos m) * Qpower 2 e)
            else inject_Z (Zpos m) * Qpower 2 e)%Q
  | S754_infinity _ | S754_nan => None
  end.

(** [Math.round]: the integer nearest to a finite number, halves going up,
    a zero result keeping the sign of the argument; [NaN], the infinities
    and the zeros are returned as they are. *)
Definition Math_round (x : number) : number :=
  match x with
  | S754_finite negative _ _ =>
      let n := Qfloor (default 0%Q (exact x) + (1 # 2))%Q in
      if n =? 0 then S754_zero negative else of_Z n
  | _ => x
  end.

End Js.

(** ** Checkout endpoint (server side) *)

Module Checkout.

(** A thrown value: an [Error] instance with its message, or anything
    else. *)
Inductive Thrown : Type :=
| ErrorObject (message : string)
| OtherValue (description : string).

(** *** Rows of the relational schema, as the endpoint reads and writes
    them *)

Module ProductImage.
Record t : Type := { url : string; sortOrder : Z }.
End ProductImage.

Module Variant.
Record t : Type := {
  id : string;
  sku : string;
  price : Q;
  stockQuantity : Z
}.
End Variant.

Module Product.
Record t : Type := {
  id : string;
  name : string;
  shortDescription : option string;
  basePrice : Q;
  salePrice : option Q;
  sku : string;
  stockQuantity : Z;
  isActive : bool;
  images : list ProductImage.t;
  variants : list Variant.t
}.
End Product.

Module OrderStatus.
Inductive t : Type :=
  PENDING | CONFIRMED | PROCESSING | SHIPPED | DELIVERED | CANCELLED | REFUNDED.
End OrderStatus.

Module PaymentStatus.
Inductive t : Type := PENDING | PAID | FAILED | REFUNDED.
End PaymentStatus.

(** An order item and an order, with the values [prisma.order.create] is
    given: the unit price is the [Decimal] read from the catalog, the other
    amounts are the numbers the handler computed. *)
Module OrderItem.
Record t : Type := {
  productId : string;
  quantity : Z;
  unitPrice : Q;
  totalPrice : Js.number;
  productName : string;
  productImage : option string;
  productSku : string;
  customizations : option Cart.Customizations
}.
End OrderItem.

Module Order.
Record t : Type := {
  id : string;
  orderNumber : string;
  userId : option string;
  status : OrderStatus.t;
  paymentStatus : PaymentStatus.t;
  subtotal : Js.number;
  taxAmount : Js.number;
  shippingAmount : Js.number;
  discountAmount : Js.number;
  totalAmount : Js.number;
  stripePaymentId : option string;
  shippingAddress : Cart.Json;
  billingAddress : Cart.Json;
  customerNotes : option string;
  items : list OrderItem.t
}.
End Order.

Record Db : Type := {
  products : list Product.t;
  orders : list Order.t
}.

(** *** The request and the response *)

Module CartLine.
Record t : Type := {
  productId : string;
  variantId : option string;
  quantity : Z;
  size : option string;
  color : option string;
  customizations : option Cart.Customizations
}.
End CartLine.

Record RequestBody : Type := {
  items : option (list CartLine.t);
  shippingAddress : Cart.Json;
  billingAddress : Cart.Json;
  customerNotes : option string
}.

(** [await request.json()] either yields the body or throws. *)
Record Request : Type := { json : Thrown + RequestBody }.

Inductive Body : Type :=
| ErrorBody (error : string)
| SessionBody (sessionId : string) (url : option string) (orderId : string).

Record Response : Type := {
  status : Z;
  body : Body
}.

(** *** The payment provider *)

Module LineItem.
Record t : Type := {
  name : string;
  description : option string;
  images : option (list string);
  metadata : list (string * string);
  unit_amount : Js.number;
  quantity : Z
}.
End LineItem.

Module SessionParams.
Record t : Type := {
  line_items : list LineItem.t;
  customer_email : option string;
  orderId : string;
  orderNumber : string;
  expires_at : Z
}.
End SessionParams.

Module StripeSession.
Record t : Type := { id : string; url : option string }.
End StripeSession.

(** *** The environment of one request *)

Record User : Type := { user_id : option string; user_email : option string }.

Record Env : Type := {
  (** [getServerSession(authOptions)] *)
  getServerSession : Thrown + option User;
  (** [Date.now()] when the order number is generated *)
  now : Z;
  (** [Date.now()] when the session is requested, after the awaited order
      write *)
  now_after_create : Z;
  (** a failure of the product read, if any *)
  product_findMany_fault : option Thrown;
  (** the identity the database generates for the new order, or a failure
      of the write *)
  order_create_id : Thrown + string;
  (** [stripe.checkout.sessions.create] *)
  stripe_sessions_create : SessionParams.t → Thrown + StripeSession.t;
  (** a failure of the order update, if any *)
  order_update_fault : option Thrown
}.

(** *** Helpers *)

(** A truthy optional string: defined and not empty. *)
Definition truthy (v : option string) : option string :=
  match v with
  | Some s => if String.eqb s "" then None else Some s
  | None => None
  end.

(** [Math.round] *)
Definition Math_round (x : Q) : Z := Qfloor (x + (1 # 2))%Q.

(** [Math.floor] of a quotient of integers *)
Definition Math_floor_div (a b : Z) : Z := a / b.

(** [orderBy: { sortOrder: 'asc' }] *)
Fixpoint insert_by_sortOrder (img : ProductImage.t) (l : list ProductImage.t)
  : list ProductImage.t :=
  match l with
  | [] => [img]
  | x :: rest =>
      if ProductImage.sortOrder img <? ProductImage.sortOrder x
      then img :: l
      else x :: insert_by_sortOrder img rest
  end.

Definition by_sortOrder (l : list ProductImage.t) : list ProductImage.t :=
  fold_right insert_by_sortOrder [] l.

(** [include: { images: { orderBy: { sortOrder: 'asc' }, take: 1 },
    variants: true }] *)
Definition with_includes (p : Product.t) : Product.t :=
  {| Product.id := Product.id p; Product.name := Product.name p;
     Product.shortDescription := Product.shortDescription p;
     Product.basePrice := Product.basePrice p;
     Product.salePrice := Product.salePrice p;
     Product.sku := Product.sku p;
     Product.stockQuantity := Product.stockQuantity p;
     Product.isActive := Product.isActive p;
     Product.images := take 1 (by_sortOrder (Product.images p));
     Product.variants := Product.variants p |}.

(** [prisma.product.findMany({ where: { id: { in: productIds },
    isActive: true }, include })]: each matching row once. *)
Definition product_findMany (db : Db) (productIds : list string) : list Product.t :=
  map with_includes
      (List.filter (λ p, bool_decide (Product.id p ∈ productIds) && Product.isActive p)
                   (products db)).

(** [products.find(p => p.id === cartItem.productId)] *)
Definition find_product (fetched : list Product.t) (productId : string)
  : option Product.t :=
  Cart.find (λ p, String.eqb (Product.id p) productId) fetched.

(** [product.variants.find(v => v.id === cartItem.variantId)] *)
Definition find_variant (product : Product.t) (variantId : string)
  : option Variant.t :=
  Cart.find (λ v, String.eqb (Variant.id v) variantId) (Product.variants product).

(** [variant ? variant.price : (product.salePrice || product.basePrice)];
    a [Decimal] is an object, hence truthy whenever it is present. *)
Definition unit_price (product : Product.t) (variant : option Variant.t) : Q :=
  match variant with
  | Some v => Variant.price v
  | None => default (Product.basePrice product) (Product.salePrice product)
  end.

(** [variant ? variant.stockQuantity : product.stockQuantity] *)
Definition available_stock (product : Product.t) (variant : option Variant.t) : Z :=
  match variant with
  | Some v => Variant.stockQuantity v
  | None => Product.stockQuantity product
  end.

(** [variant?.sku || product.sku] *)
Definition snapshot_sku (product : Product.t) (variant : option Variant.t) : string :=
  match variant with
  | Some v => if String.eqb (Variant.sku v) "" then Product.sku product else Variant.sku v
  | None => Product.sku product
  end.

Definition bad_request (message : string) : Response :=
  {| status := 400; body := ErrorBody message |}.

(** Helper function to calculate shipping *)
Definition calculateShipping (subtotal : Q) : Q :=
  if Qle_bool 150 subtotal then 0%Q
  else if Qle_bool 100 subtotal then 9.99%Q
  else if Qle_bool 50 subtotal then 14.99%Q
  else 19.99%Q.

(** [calculateShipping(subtotal)] on the number the handler holds.  A finite
    double is a rational and its comparisons with 150, 100 and 50 are exact;
    [Infinity] passes the first test; [NaN] and [-Infinity] fail every test.
    The literal returned denotes the double nearest to it. *)
Definition shipping_cost (subtotal : Js.number) : Js.number :=
  match subtotal with
  | S754_infinity false => Js.toNumber 0
  | S754_infinity true | S754_nan => Js.toNumber 19.99
  | S754_zero _ | S754_finite _ _ _ =>
      Js.toNumber (from_option calculateShipping 19.99%Q (Js.exact subtotal))
  end.

Definition line_item (product : Product.t) (variant : option Variant.t)
           (cartItem : CartLine.t) : LineItem.t :=
  let price := unit_price product variant in
  {| LineItem.name := Product.name product;
     LineItem.description := truthy (Product.shortDescription product);
     LineItem.images :=
       match Product.images product with
       | img :: _ => Some [ProductImage.url img]
       | [] => None
       end;
     LineItem.metadata :=
       [("productId", Product.id product);
        ("variantId", from_option Variant.id "" variant);
        ("sku", snapshot_sku product variant);
        ("size", default "" (truthy (CartLine.size cartItem)));
        ("color", default "" (truthy (CartLine.color cartItem)));
        ("customizations",
         default "" (Cart.JSON_stringify
                       (Some (default [] (CartLine.customizations cartItem)))))];
     LineItem.unit_amount := Js.Math_round (Js.mul (Js.toNumber price) (Js.of_Z 100));
     LineItem.quantity := CartLine.quantity cartItem |}.

Definition shipping_line_item (shippingCost : Js.number) : LineItem.t :=
  {| LineItem.name := "Shipping";
     LineItem.description := Some "Standard shipping";
     LineItem.images := None;
     LineItem.metadata := [];
     LineItem.unit_amount := Js.Math_round (Js.mul shippingCost (Js.of_Z 100));
     LineItem.quantity := 1 |}.

(** The [for] loop over the submitted items: a line that fails returns
    its response at once; otherwise the Stripe line items and the subtotal
    accumulate. *)
Fixpoint validate_lines (fetched : list Product.t) (items : list CartLine.t)
         (lineItems : list LineItem.t) (subtotal : Js.number)
  : Response + (list LineItem.t * Js.number) :=
  match items with
  | [] => inr (lineItems, subtotal)
  | cartItem :: rest =>
      match find_product fetched (CartLine.productId cartItem) with
      | None =>
          inl (bad_request ("Product " +:+ CartLine.productId cartItem +:+ " not found"))
      | Some product =>
          let variant :=
            match truthy (CartLine.variantId cartItem) with
            | Some variantId =>
                match find_variant product variantId with
                | Some v => inr (Some v)
                | None =>
                    inl (bad_request ("Product variant " +:+ variantId +:+ " not found"))
                end
            | None => inr None
            end in
          match variant with
          | inl response => inl response
          | inr variant =>
              let price := unit_price product variant in
              let stock := available_stock product variant in
              if CartLine.quantity cartItem >? stock
              then inl (bad_request ("Insufficient stock for " +:+ Product.name product))
              else
                validate_lines fetched rest
                  (lineItems ++ [line_item product variant cartItem])
                  (Js.add subtotal
                          (Js.mul (Js.toNumber price)
                                  (Js.of_Z (CartLine.quantity cartItem))))
          end
      end
  end.

(** The callback of [items.map] inside [prisma.order.create]; [None]
    stands for the [TypeError] of reading a property of [undefined]. *)
Definition order_item (fetched : list Product.t) (cartItem : CartLine.t)
  : option OrderItem.t :=
  product ← find_product fetched (CartLine.productId cartItem);
  let variant :=
    match truthy (CartLine.variantId cartItem) with
    | Some variantId => find_variant product variantId
    | None => None
    end in
  let price := unit_price product variant in
  Some {| OrderItem.productId := CartLine.productId cartItem;
          OrderItem.quantity := CartLine.quantity cartItem;
          OrderItem.unitPrice := price;
          OrderItem.totalPrice :=
            Js.mul (Js.toNumber price) (Js.of_Z (CartLine.quantity cartItem));
          OrderItem.productName := Product.name product;
          OrderItem.productImage := ProductImage.url <$> head (Product.images product);
          OrderItem.productSku := snapshot_sku product variant;
          OrderItem.customizations := CartLine.customizations cartItem |}.

(** [prisma.order.create]: the primary key and the order number are
    unique. *)
Definition order_create (env : Env) (db : Db) (data : string → Order.t)
  : Thrown + (Order.t * Db) :=
  match order_create_id env with
  | inl e => inl e
  | inr id =>
      let order := data id in
      if existsb (λ o, String.eqb (Order.id o) id
                       || String.eqb (Order.orderNumber o) (Order.orderNumber order))
                 (orders db)
      then inl (ErrorObject "Unique constraint failed")
      else inr (order, {| products := products db; orders := orders db ++ [order] |})
  end.

Definition set_stripePaymentId (sessionId : string) (o : Order.t) : Order.t :=
  {| Order.id := Order.id o; Order.orderNumber := Order.orderNumber o;
     Order.userId := Order.userId o; Order.status := Order.status o;
     Order.paymentStatus := Order.paymentStatus o;
     Order.subtotal := Order.subtotal o; Order.taxAmount := Order.taxAmount o;
     Order.shippingAmount := Order.shippingAmount o;
     Order.discountAmount := Order.discountAmount o;
     Order.totalAmount := Order.totalAmount o;
     Order.stripePaymentId := Some sessionId;
     Order.shippingAddress := Order.shippingAddress o;
     Order.billingAddress := Order.billingAddress o;
     Order.customerNotes := Order.customerNotes o;
     Order.items := Order.items o |}.

(** [prisma.order.update({ where: { id }, data: { stripePaymentId } })] *)
Definition order_update (env : Env) (db : Db) (id sessionId : string)
  : Thrown + Db :=
  match order_update_fault env with
  | Some e => inl e
  | None =>
      if existsb (λ o, String.eqb (Order.id o) id) (orders db)
      then inr {| products := products db;
                  orders := map (λ o, if String.eqb (Order.id o) id
                                      then set_stripePaymentId sessionId o
                                      else o)
                                (orders db) |}
      else inl (ErrorObject "Record to update not found")
  end.

(** *** [POST] *)

Record Outcome : Type := {
  response : Response;
  db_after : Db;
  (** what [console.error] received *)
  logged : list Thrown
}.

(** The [try] block: it ends by returning a response or by throwing. *)
Definition attempt (env : Env) (request : Request) (db : Db)
  : (Thrown + Response) * Db :=
  match getServerSession env with
  | inl e => (inl e, db)
  | inr session =>
  match json request with
  | inl e => (inl e, db)
  | inr payload =>
  match items payload with
  | None => (inr (bad_request "No items in cart"), db)
  | Some items =>
      if (length items =? 0)%nat
      then (inr (bad_request "No items in cart"), db)
      else
      let productIds := map CartLine.productId items in
      match product_findMany_fault env with
      | Some e => (inl e, db)
      | None =>
      let fetched := product_findMany db productIds in
      if negb (length fetched =? length productIds)%nat
      then (inr (bad_request "Some products are no longer available"), db)
      else
      match validate_lines fetched items [] Js.zero with
      | inl response => (inr response, db)
      | inr (lineItems, subtotal) =>
          let shippingCost := shipping_cost subtotal in
          let lineItems :=
            if Js.gt shippingCost Js.zero
            then (lineItems ++ [shipping_line_item shippingCost])%list
            else lineItems in
          let orderNumber := "GD" +:+ pretty (now env) in
          match mapM (order_item fetched) items with
          | None => (inl (ErrorObject "Cannot read properties of undefined"), db)
          | Some orderItems =>
          match order_create env db
                  (λ id,
                   {| Order.id := id;
                      Order.orderNumber := orderNumber;
                      Order.userId := session ≫= user_id;
                      Order.status := OrderStatus.PENDING;
                      Order.paymentStatus := PaymentStatus.PENDING;
                      Order.subtotal := subtotal;
                      Order.taxAmount := Js.zero;
                      Order.shippingAmount := shippingCost;
                      Order.discountAmount := Js.zero;
                      Order.totalAmount := Js.add subtotal shippingCost;
                      Order.stripePaymentId := None;
                      Order.shippingAddress := shippingAddress payload;
                      Order.billingAddress := billingAddress payload;
                      Order.customerNotes := customerNotes payload;
                      Order.items := orderItems |}) with
          | inl e => (inl e, db)
          | inr (order, db1) =>
              match stripe_sessions_create env
                      {| SessionParams.line_items := lineItems;
                         SessionParams.customer_email := truthy (session ≫= user_email);
                         SessionParams.orderId := Order.id order;
                         SessionParams.orderNumber := Order.orderNumber order;
                         SessionParams.expires_at :=
                           Math_floor_div (now_after_create env) 1000 + 30 * 60 |} with
              | inl e => (inl e, db1)
              | inr checkoutSession =>
                  match order_update env db1 (Order.id order)
                                     (StripeSession.id checkoutSession) with
                  | inl e => (inl e, db1)
                  | inr db2 =>
                      (inr {| status := 200;
                              body := SessionBody (StripeSession.id checkoutSession)
                                                  (StripeSession.url checkoutSession)
                                                  (Order.id order) |},
                       db2)
                  end
              end
          end
          end
      end
      end
  end
  end
  end.

(** The message the [catch] block puts in the response. *)
Definition caught_message (e : Thrown) : string :=
  match e with
  | ErrorObject message => message
  | OtherValue _ => "Failed to create checkout session"
  end.

Definition POST (env : Env) (request : Request) (db : Db) : Outcome :=
  match attempt env request db with
  | (inr response, db') =>
      {| response := response; db_after := db'; logged := [] |}
  | (inl error, db') =>
      {| response := {| status := 500; body := ErrorBody (caught_message error) |};
         db_after := db';
         logged := [error] |}
  end.

(** *** Specification-side notions *)

(** Number of distinct product ids a cart references. *)
Definition distinct_ids (items : list CartLine.t) : nat :=
  length (remove_dups (map CartLine.productId items)).

(** [row] is the catalog row an id resolves to: the first active row
    with that id. *)
Definition first_active_row (db : Db) (productId : string) (row : Product.t) : Prop :=
  ∃ before after,
    products db = before ++ row :: after
    ∧ Product.id row = productId
    ∧ Product.isActive row = true
    ∧ Forall (λ p, Product.id p ≠ productId ∨ Product.isActive p = false) before.

(** [v] is the variant of [row] an id resolves to: the first with that id. *)
Definition first_variant (row : Product.t) (variantId : string) (v : Variant.t) : Prop :=
  ∃ before after,
    Product.variants row = before ++ v :: after
    ∧ Variant.id v = variantId
    ∧ Forall (λ v', Variant.id v' ≠ variantId) before.

(** [image] is the url of an image of [row] with the least sort order, or
    nothing when [row] has no image. *)
Definition first_image (row : Product.t) (image : option string) : Prop :=
  match image with
  | None => Product.images row = []
  | Some url =>
      ∃ img, img ∈ Product.images row
             ∧ ProductImage.url img = url
             ∧ ∀ img', img' ∈ Product.images row →
                       ProductImage.sortOrder img ≤ ProductImage.sortOrder img'
  end.

(** An order item is the snapshot of a cart line against the catalog:
    identity, quantity and customizations of the line; name and first image
    of the catalog row; unit price and sku of the specified variant (the
    product's sku when the variant's is empty), or, with no variant
    specified, the sale price if there is one, else the base price, and the
    product's sku; total price the unit price times the quantity, in
    doubles. *)
Definition line_snapshot (db : Db) (line : CartLine.t) (oi : OrderItem.t) : Prop :=
  ∃ row,
    first_active_row db (CartLine.productId line) row
    ∧ OrderItem.productId oi = CartLine.productId line
    ∧ OrderItem.quantity oi = CartLine.quantity line
    ∧ OrderItem.customizations oi = CartLine.customizations line
    ∧ OrderItem.productName oi = Product.name row
    ∧ first_image row (OrderItem.productImage oi)
    ∧ (∀ variantId,
          CartLine.variantId line = Some variantId → variantId ≠ "" →
          ∃ v, first_variant row variantId v
               ∧ OrderItem.unitPrice oi = Variant.price v
               ∧ (Variant.sku v ≠ "" → OrderItem.productSku oi = Variant.sku v)
               ∧ (Variant.sku v = "" → OrderItem.productSku oi = Product.sku row))
    ∧ (CartLine.variantId line = None ∨ CartLine.variantId line = Some "" →
       OrderItem.productSku oi = Product.sku row
       ∧ (∀ sale, Product.salePrice row = Some sale → OrderItem.unitPrice oi = sale)
       ∧ (Product.salePrice row = None →
          OrderItem.unitPrice oi = Product.basePrice row))
    ∧ OrderItem.totalPrice oi
      = Js.mul (Js.toNumber (OrderItem.unitPrice oi)) (Js.of_Z (OrderItem.quantity oi)).

(** The shipping amount is the schedule's value at a finite subtotal: free
    from 150, 9.99 from 100, 14.99 from 50 and 19.99 below. *)
Definition shipping_tiers (subtotal shipping : Js.number) : Prop :=
  ∀ q, Js.exact subtotal = Some q →
       ((150 <= q)%Q → shipping = Js.toNumber 0)
       ∧ ((100 <= q)%Q → (q < 150)%Q → shipping = Js.toNumber 9.99)
       ∧ ((50 <= q)%Q → (q < 100)%Q → shipping = Js.toNumber 14.99)
       ∧ ((q < 50)%Q → shipping = Js.toNumber 19.99).

(** Sum of the items' total prices, added in order in doubles from 0. *)
Definition items_total (orderItems : list OrderItem.t) : Js.number :=
  fold_left (λ sum oi, Js.add sum (OrderItem.totalPrice oi)) orderItems Js.zero.

(** What the [try] block can come to: a throw before the order is
    written, a refusal, a throw after the order is written, or the linked
    order and session. *)
Inductive attempt_result (env : Env) (request : Request) (db : Db)
  : (Thrown + Response) * Db → Prop :=
| threw_before_write e :
    attempt_result env request db (inl e, db)
| refused response :
    status response = 400 →
    attempt_result env request db (inr response, db)
| threw_after_write e order :
    attempt_result env request db
      (inl e, {| products := products db; orders := orders db ++ [order] |})
| linked payload lines lineItems subtotal orderItems id checkoutSession session :
    getServerSession env = inr session →
    json request = inr payload →
    items payload = Some lines →
    validate_lines (product_findMany db (map CartLine.productId lines)) lines [] Js.zero
    = inr (lineItems, subtotal) →
    mapM (order_item (product_findMany db (map CartLine.productId lines))) lines
    = Some orderItems →
    order_create_id env = inr id →
    Forall (λ o, String.eqb (Order.id o) id = false) (orders db) →
    attempt_result env request db
      (inr {| status := 200;
              body := SessionBody (StripeSession.id checkoutSession)
                                  (StripeSession.url checkoutSession) id |},
       {| products := products db;
          orders := orders db
                    ++ [{| Order.id := id;
                           Order.orderNumber := "GD" +:+ pretty (now env);
                           Order.userId := session ≫= user_id;
                           Order.status := OrderStatus.PENDING;
                           Order.paymentStatus := PaymentStatus.PENDING;
                           Order.subtotal := subtotal;
                           Order.taxAmount := Js.zero;
                           Order.shippingAmount := shipping_cost subtotal;
                           Order.discountAmount := Js.zero;
                           Order.totalAmount := Js.add subtotal (shipping_cost subtotal);
                           Order.stripePaymentId := Some (StripeSession.id checkoutSession);
                           Order.shippingAddress := shippingAddress payload;
                           Order.billingAddress := billingAddress payload;
                           Order.customerNotes := customerNotes payload;
                           Order.items := orderItems |}] |}).

(** *** Further notions used to state properties of the endpoint *)

(** A line passes the loop: its product was fetched, its variant (if one is
    specified) exists on that product, and the requested quantity does not
    exceed the stock. *)
Definition line_passes (fetched : list Product.t) (line : CartLine.t) : bool :=
  match find_product fetched (CartLine.productId line) with
  | None => false
  | Some product =>
      match truthy (CartLine.variantId line) with
      | Some variantId =>
          match find_variant product variantId with
          | Some v => CartLine.quantity line <=? Variant.stockQuantity v
          | None => false
          end
      | None => CartLine.quantity line <=? Product.stockQuantity product
      end
  end.

End Checkout.

(** ** Concrete carts, catalogs and requests used by the examples below *)

Module Samples.

Import Checkout.

(** A lehenga sold in two sizes, and a saree without variants. *)
Definition lehenga : Product.t :=
  {| Product.id := "p-lehenga"; Product.name := "Bridal Lehenga";
     Product.shortDescription := Some "Hand embroidered";
     Product.basePrice := 80%Q; Product.salePrice := Some 60%Q;
     Product.sku := "LEH-1"; Product.stockQuantity := 3;
     Product.isActive := true;
     Product.images := [ {| ProductImage.url := "/img/leh-back.jpg"; ProductImage.sortOrder := 2 |};
                         {| ProductImage.url := "/img/leh-front.jpg"; ProductImage.sortOrder := 1 |} ];
     Product.variants := [ {| Variant.id := "v-s"; Variant.sku := "LEH-1-S";
                              Variant.price := 70%Q; Variant.stockQuantity := 5 |};
                           {| Variant.id := "v-m"; Variant.sku := "LEH-1-M";
                              Variant.price := 75%Q; Variant.stockQuantity := 5 |} ] |}.

Definition saree : Product.t :=
  {| Product.id := "p-saree"; Product.name := "Silk Saree";
     Product.shortDescription := None;
     Product.basePrice := 40%Q; Product.salePrice := None;
     Product.sku := "SAR-1"; Product.stockQuantity := 3;
     Product.isActive := true;
     Product.images := [];
     Product.variants := [] |}.

Definition shop : Db := {| products := [lehenga; saree]; orders := [] |}.

Definition line (productId : string) (variantId : option string) (quantity : Z)
  : CartLine.t :=
  {| CartLine.productId := productId; CartLine.variantId := variantId;
     CartLine.quantity := quantity; CartLine.size := None; CartLine.color := None;
     CartLine.customizations := None |}.

Definition request_of (lines : list CartLine.t) : Request :=
  {| json := inr {| items := Some lines;
                    shippingAddress := Cart.JString "12 Main St";
                    billingAddress := Cart.JString "12 Main St";
                    customerNotes := None |} |}.

Definition session_ok (params : SessionParams.t) : Thrown + StripeSession.t :=
  inr {| StripeSession.id := "cs_test_1";
         StripeSession.url := Some "https://checkout.example/cs_test_1" |}.

Definition session_refused (params : SessionParams.t) : Thrown + StripeSession.t :=
  inl (ErrorObject "connect ECONNREFUSED 10.0.0.5:443").

(** An environment in which every awaited call succeeds. *)
Definition calm : Env :=
  {| getServerSession := inr None;
     now := 1700000000000;
     now_after_create := 1700000000450;
     product_findMany_fault := None;
     order_create_id := inr "order-1";
     stripe_sessions_create := session_ok;
     order_update_fault := None |}.

(** The same, with the payment provider unreachable. *)
Definition provider_down : Env :=
  {| getServerSession := inr None;
     now := 1700000000000;
     now_after_create := 1700000000450;
     product_findMany_fault := None;
     order_create_id := inr "order-1";
     stripe_sessions_create := session_refused;
     order_update_fault := None |}.

(** A shop whose prices have cents: a bangle at 5.10 and a kurta at
    48.30, the kurta in one size with a sku of its own. *)
Definition bangle : Product.t :=
  {| Product.id := "p-bangle"; Product.name := "Glass Bangle";
     Product.shortDescription := None;
     Product.basePrice := 5.10%Q; Product.salePrice := None;
     Product.sku := "BAN-1"; Product.stockQuantity := 10;
     Product.isActive := true;
     Product.images := [];
     Product.variants := [] |}.

Definition kurta : Product.t :=
  {| Product.id := "p-kurta"; Product.name := "Cotton Kurta";
     Product.shortDescription := Some "Block printed";
     Product.basePrice := 55%Q; Product.salePrice := Some 50%Q;
     Product.sku := "KUR-1"; Product.stockQuantity := 0;
     Product.isActive := true;
     Product.images := [ {| ProductImage.url := "/img/kurta-side.jpg"; ProductImage.sortOrder := 3 |};
                         {| ProductImage.url := "/img/kurta-front.jpg"; ProductImage.sortOrder := 0 |} ];
     Product.variants := [ {| Variant.id := "k-l"; Variant.sku := "KUR-1-L";
                              Variant.price := 48.30%Q; Variant.stockQuantity := 4 |} ] |}.

Definition boutique : Db := {| products := [bangle; kurta]; orders := [] |}.

(** One bangle and three kurtas. *)
Definition bangle_and_kurtas : list CartLine.t :=
  [line "p-bangle" None 1; line "p-kurta" (Some "k-l") 3].

(** Two sizes of the same lehenga, one of each. *)
Definition two_sizes : list CartLine.t :=
  [line "p-lehenga" (Some "v-s") 1; line "p-lehenga" (Some "v-m") 1].

(** Cart items. *)
Definition dupatta (quantity maxQuantity : Z) : Cart.OmitId :=
  {| Cart.productId := "p-dupatta"; Cart.variantId := None;
     Cart.name := "Dupatta"; Cart.image := "/img/dupatta.jpg";
     Cart.price := 25%Q; Cart.quantity := quantity;
     Cart.size := None; Cart.color := Some "red";
     Cart.customizations := Some [("monogram", "GD")];
     Cart.maxQuantity := maxQuantity; Cart.sku := "DUP-1" |}.

Definition one_dupatta : Cart.CartState :=
  {| Cart.items := [ {| Cart.id := "id-1"; Cart.fields := dupatta 2 5 |} ];
     Cart.isOpen := true |}.

End Samples.

(** ** Catalog endpoint: price filter, shaping and pagination *)

Module CatalogShape.

Import Catalog.

(** The columns of a product row that the price filter and the shaping
    read; [ratings] are the ratings of its reviews. *)
Record Row : Type := {
  basePrice : Q;
  salePrice : option Q;
  ratings : list Z
}.

(** The filter fragments the endpoint pushes on [where.AND]. *)
Inductive Field : Type := salePrice_field | basePrice_field.

Inductive Clause : Type :=
| gte (f : Field) (v : JsNumber)
| lte (f : Field) (v : JsNumber)
| is_null (f : Field)
| AND (clauses : list Clause)
| OR (clauses : list Clause).

(** [if (minPrice !== undefined) where.AND.push(...)], then the same for
    [maxPrice]. *)
Definition price_range (minPrice maxPrice : option JsNumber) : list Clause :=
  match minPrice with
  | Some m => [OR [gte salePrice_field m;
                   AND [is_null salePrice_field; gte basePrice_field m]]]
  | None => []
  end
  ++ match maxPrice with
     | Some m => [OR [lte salePrice_field m;
                      AND [is_null salePrice_field; lte basePrice_field m]]]
     | None => []
     end.

(** How the database reads a fragment on a row: a comparison on a null
    column does not hold, nor does a comparison with [NaN]. *)
Definition column (row : Row) (f : Field) : option Q :=
  match f with
  | salePrice_field => salePrice row
  | basePrice_field => Some (basePrice row)
  end.

Definition number_le (a b : JsNumber) : bool :=
  match a, b with
  | NaN, _ | _, NaN => false
  | Infinity true, _ => true
  | _, Infinity false => true
  | Infinity false, _ => false
  | _, Infinity true => false
  | Finite x, Finite y => Qle_bool x y
  end.

Fixpoint holds (row : Row) (c : Clause) : bool :=
  match c with
  | gte f v => from_option (λ x, number_le v (Finite x)) false (column row f)
  | lte f v => from_option (λ x, number_le (Finite x) v) false (column row f)
  | is_null f => bool_decide (column row f = None)
  | AND clauses => forallb (holds row) clauses
  | OR clauses => existsb (holds row) clauses
  end.

(** [product.salePrice || product.basePrice] *)
Definition effectivePrice (row : Row) : Q := default (basePrice row) (salePrice row).

(** [hasDiscount ? Math.round(((base.toNumber() - sale.toNumber())
    / base.toNumber()) * 100) : 0], in doubles. *)
Definition discountPercentage (row : Row) : Js.number :=
  match salePrice row with
  | Some sale =>
      Js.Math_round
        (Js.mul (Js.div (Js.sub (Js.toNumber (basePrice row)) (Js.toNumber sale))
                        (Js.toNumber (basePrice row)))
                (Js.of_Z 100))
  | None => Js.zero
  end.

(** [Math.round(averageRating * 10) / 10], the average being 0 without
    reviews. *)
Definition averageRating (row : Row) : Q :=
  let average :=
    if (0 <? length (ratings row))%nat
    then (inject_Z (fold_left (λ sum rating, (sum + rating)%Z) (ratings row) 0%Z)
          / inject_Z (Z.of_nat (length (ratings row))))%Q
    else 0%Q in
  (inject_Z (Checkout.Math_round (average * 10)%Q) / 10)%Q.

(** Pagination, for a finite [page] and a finite [limit] other than 0 (what
    [parseInt] yields on a numeric parameter). *)
Record Pagination : Type := {
  page : Z;
  limit : Z;
  totalCount : Z;
  totalPages : Z;
  hasNextPage : bool;
  hasPreviousPage : bool
}.

(** [const skip = (page - 1) * limit] *)
Definition skip (page limit : Z) : Z := (page - 1) * limit.

Definition pagination (page limit totalCount : Z) : Pagination :=
  let totalPages := Qceiling (inject_Z totalCount / inject_Z limit)%Q in
  {| page := page;
     limit := limit;
     totalCount := totalCount;
     totalPages := totalPages;
     hasNextPage := page <? totalPages;
     hasPreviousPage := page >? 1 |}.

End CatalogShape.

(** ** Hero carousel *)

Module Hero.

(** [heroSlides.length] *)
Definition heroSlides_length : Z := 3.

Record State : Type := {
  currentSlide : Z;
  isAutoPlaying : bool
}.

(** [setTimeout(() => setIsAutoPlaying(true), ms)] *)
Inductive Effect : Type := ResumeAutoPlayAfter (ms : Z).

(** [(prev + 1) % heroSlides.length]; [%] truncates like [Z.rem]. *)
Definition advance (prev : Z) : Z := Z.rem (prev + 1) heroSlides_length.

(** [(prev - 1 + heroSlides.length) % heroSlides.length] *)
Definition retreat (prev : Z) : Z :=
  Z.rem (prev - 1 + heroSlides_length) heroSlides_length.

Definition goToSlide (index : Z) (s : State) : State * list Effect :=
  ({| currentSlide := index; isAutoPlaying := false |}, [ResumeAutoPlayAfter 10000]).

Definition nextSlide (s : State) : State * list Effect :=
  ({| currentSlide := advance (currentSlide s); isAutoPlaying := false |},
   [ResumeAutoPlayAfter 10000]).

Definition prevSlide (s : State) : State * list Effect :=
  ({| currentSlide := retreat (currentSlide s); isAutoPlaying := false |},
   [ResumeAutoPlayAfter 10000]).

(** One firing of the 6000 ms interval; the interval exists only while
    [isAutoPlaying] holds. *)
Definition autoAdvance (s : State) : State :=
  if isAutoPlaying s
  then {| currentSlide := advance (currentSlide s); isAutoPlaying := true |}
  else s.

(** The timer set by a navigation fires. *)
Definition resumeAutoPlay (s : State) : State :=
  {| currentSlide := currentSlide s; isAutoPlaying := true |}.

(** The slide index points into [heroSlides]. *)
Definition in_range (s : State) : Prop :=
  0 ≤ currentSlide s ∧ currentSlide s < heroSlides_length.

End Hero.

(** ** Further sample data *)

Module MoreSamples.

(** Base 2000.00 on sale for 1500.00. *)
Definition discounted : CatalogShape.Row :=
  {| CatalogShape.basePrice := 2000%Q; CatalogShape.salePrice := Some 1500%Q;
     CatalogShape.ratings := [] |}.

(** Base 10.00 on sale for 8.05: the quotient of the doubles times 100 is
    19.499999999999993. *)
Definition marked_down : CatalogShape.Row :=
  {| CatalogShape.basePrice := 10.00%Q; CatalogShape.salePrice := Some 8.05%Q;
     CatalogShape.ratings := [] |}.

(** Three reviews: 5, 4 and 4 stars. *)
Definition reviewed : CatalogShape.Row :=
  {| CatalogShape.basePrice := 80%Q; CatalogShape.salePrice := None;
     CatalogShape.ratings := [5; 4; 4] |}.

(** An order written in the same millisecond as [Samples.calm]'s clock
    reading. *)
Definition earlier_order : Checkout.Order.t :=
  {| Checkout.Order.id := "order-0";
     Checkout.Order.orderNumber := "GD1700000000000";
     Checkout.Order.userId := None;
     Checkout.Order.status := Checkout.OrderStatus.PENDING;
     Checkout.Order.paymentStatus := Checkout.PaymentStatus.PENDING;
     Checkout.Order.subtotal := Js.toNumber 40;
     Checkout.Order.taxAmount := Js.zero;
     Checkout.Order.shippingAmount := Js.toNumber 19.99;
     Checkout.Order.discountAmount := Js.zero;
     Checkout.Order.totalAmount := Js.add (Js.toNumber 40) (Js.toNumber 19.99);
     Checkout.Order.stripePaymentId := None;
     Checkout.Order.shippingAddress := Cart.JString "12 Main St";
     Checkout.Order.billingAddress := Cart.JString "12 Main St";
     Checkout.Order.customerNotes := None;
     Checkout.Order.items := [] |}.

Definition busy_shop : Checkout.Db :=
  {| Checkout.products := Checkout.products Samples.shop;
     Checkout.orders := [earlier_order] |}.

End MoreSamples.

(** * Properties *)

(** ** Array helpers *)

Section ArrayHelpers.

Context {A : Type}.
Implicit Types (p : A → bool) (l : list A).

Lemma find_none p l :
  Forall (λ x, p x = false) l → Cart.find p l = None.
Proof.
  induction 1 as [|x l Hx _ IH]; simpl; [done|]. by rewrite Hx.
Qed.

Lemma findIndex_none p l :
  Forall (λ x, p x = false) l → Cart.findIndex p l = None.
Proof.
  induction 1 as [|x l Hx _ IH]; simpl; [done|]. by rewrite Hx, IH.
Qed.

(** [findIndex] stops at the first element that satisfies the predicate. *)
Lemma findIndex_first p l x r :
  Forall (λ y, p y = false) l → p x = true →
  Cart.findIndex p (l ++ x :: r) = Some (length l).
Proof.
  intros Hl Hx. induction Hl as [|y l Hy _ IH]; simpl.
  - by rewrite Hx.
  - by rewrite Hy, IH.
Qed.

(** The index [findIndex] returns is inside the array, at an element that
    [find] returns too. *)
Lemma findIndex_find p l i :
  Cart.findIndex p l = Some i →
  ∃ x, l !! i = Some x ∧ Cart.find p l = Some x ∧ p x = true.
Proof.
  revert i. induction l as [|y l IH]; intros i; simpl; [done|].
  destruct (p y) eqn:Hy.
  - intros [= <-]. eauto.
  - destruct (Cart.findIndex p l) as [j|]; [|done].
    intros [= <-]. destruct (IH j eq_refl) as (x & ? & ? & ?). eauto.
Qed.

Lemma find_findIndex p l x :
  Cart.find p l = Some x → ∃ i, Cart.findIndex p l = Some i ∧ l !! i = Some x.
Proof.
  induction l as [|y l IH]; simpl; [done|].
  destruct (p y) eqn:Hy.
  - intros [= <-]. by exists 0%nat.
  - intros Hf. destruct (IH Hf) as (i & -> & ?). by exists (S i).
Qed.

Lemma find_none_findIndex p l :
  Cart.find p l = None → Cart.findIndex p l = None.
Proof.
  induction l as [|y l IH]; simpl; [done|].
  destruct (p y); [done|]. intros Hf. by rewrite (IH Hf).
Qed.

(** Replacing the element at the position after [l]. *)
Lemma imap_untouched (g : nat → A → A) l :
  (∀ i x, g i x = x) → imap g l = l.
Proof.
  intros Hg. revert g Hg. induction l as [|y l IH]; intros g Hg; simpl; [done|].
  rewrite Hg. f_equal. apply IH. intros i x. apply Hg.
Qed.

(** Replacing the element at the position after [l]. *)
Lemma imap_replace_at (f : A → A) l x r :
  imap (λ index item, if bool_decide (index = length l) then f item else item)
       (l ++ x :: r)
  = l ++ f x :: r.
Proof.
  induction l as [|y l IH]; simpl.
  - f_equal. apply imap_untouched. intros i z. simpl.
    repeat case_bool_decide; try done; lia.
  - f_equal. rewrite <- IH. apply imap_ext. intros i z _. simpl.
    repeat case_bool_decide; try done; lia.
Qed.

End ArrayHelpers.

(** ** Cart store *)

Section CartStore.

Import Cart.

Lemma with_quantity_twice item a b :
  with_quantity (with_quantity item a) b = with_quantity item b.
Proof. reflexivity. Qed.

Lemma with_quantity_same item :
  with_quantity item (quantity item) = item.
Proof. by destruct item as [? []]. Qed.

Lemma same_entry_true newItem item :
  same_entry newItem item = true ↔ same_tuple item newItem.
Proof.
  unfold same_entry, same_tuple.
  rewrite !andb_true_iff, !bool_decide_eq_true. tauto.
Qed.

(** Two new items with the same tuple are matched against the same
    entries. *)
Lemma same_entry_of_same_tuple (a b : OmitId) item :
  same_tuple a b → same_entry a item = same_entry b item.
Proof.
  intros (Hp & Hv & Hc). unfold same_entry. by rewrite Hp, Hv, Hc.
Qed.

(** *** The two outcomes of one [addItem] call on an existing entry *)

Lemma addItem_merge uuid newItem l e r open :
  Forall (λ item, same_entry newItem item = false) l →
  same_entry newItem e = true →
  quantity e + quantity newItem ≤ maxQuantity e →
  addItem uuid newItem {| items := l ++ e :: r; isOpen := open |}
  = ({| items := l ++ with_quantity e (quantity e + quantity newItem) :: r;
        isOpen := true |},
     [ToastSuccess "Updated quantity in cart"; SetTimeoutCloseCart 3000]).
Proof.
  intros Hl He Hq. unfold addItem. simpl.
  rewrite (findIndex_first _ _ _ _ Hl He).
  rewrite list_lookup_middle by done. simpl.
  destruct (Z.gtb_spec (quantity e + quantity newItem) (maxQuantity e)); [lia|].
  unfold openCart, set_items, set_isOpen. simpl.
  by rewrite (imap_replace_at (λ item, with_quantity item (quantity e + quantity newItem))).
Qed.

Lemma addItem_append uuid newItem state :
  Forall (λ item, same_entry newItem item = false) (items state) →
  quantity newItem ≤ maxQuantity newItem →
  addItem uuid newItem state
  = ({| items := items state ++ [{| id := uuid; fields := newItem |}]; isOpen := true |},
     [ToastSuccess (name newItem +:+ " added to cart"); SetTimeoutCloseCart 3000]).
Proof.
  intros Hl Hq. unfold addItem. rewrite (findIndex_none _ _ Hl).
  by destruct (Z.gtb_spec (quantity newItem) (maxQuantity newItem)); [lia|].
Qed.

Lemma addItem_existing_refused uuid newItem state e :
  find (same_entry newItem) (items state) = Some e →
  maxQuantity e < quantity e + quantity newItem →
  addItem uuid newItem state = (state, [CapacityExceeded (maxQuantity e)]).
Proof.
  intros Hf Hq. unfold addItem.
  destruct (find_findIndex _ _ _ Hf) as (i & -> & ->).
  by destruct (Z.gtb_spec (quantity e + quantity newItem) (maxQuantity e)); [|lia].
Qed.

Lemma addItem_new_refused uuid newItem state :
  find (same_entry newItem) (items state) = None →
  maxQuantity newItem < quantity newItem →
  addItem uuid newItem state = (state, [CapacityExceeded (maxQuantity newItem)]).
Proof.
  intros Hf Hq. unfold addItem. rewrite (find_none_findIndex _ _ Hf).
  by destruct (Z.gtb_spec (quantity newItem) (maxQuantity newItem)); [|lia].
Qed.

(** *** A run of calls on one entry *)

Lemma running_totals_head acc q qs :
  Forall (λ t, t ≤ acc) (running_totals q qs) →
  match qs with [] => True | q' :: _ => q + q' ≤ acc end.
Proof. destruct qs; simpl; [done|]. by inversion 1. Qed.

Lemma addItems_merge (n : OmitId) calls :
  ∀ l (e : CartItem) r open,
    Forall (λ item, same_entry n item = false) l →
    same_tuple e n →
    Forall (λ call, same_tuple call.2 n) calls →
    Forall (λ t, t ≤ maxQuantity e)
           (running_totals (quantity e) (map (λ call, quantity call.2) calls)) →
    items (addItems calls {| items := l ++ e :: r; isOpen := open |})
    = l ++ with_quantity e (quantity e
                            + sum_quantities (map (λ call, quantity call.2) calls)) :: r.
Proof.
  induction calls as [|[uuid x] calls IH]; intros l e r open Hl He Hcalls Htot; simpl.
  - by rewrite Z.add_0_r, with_quantity_same.
  - inversion Hcalls as [|? ? Hx Hrest]; subst. simpl in Hx.
    simpl in Htot. inversion Htot as [|? ? Hfirst Hlater]; subst.
    rewrite addItem_merge; simpl.
    + rewrite IH; simpl; try done.
      * by rewrite Z.add_assoc.
    + eapply Forall_impl; [exact Hl|]. intros item Hitem. simpl in *.
      by rewrite (same_entry_of_same_tuple x n item Hx).
    + rewrite (same_entry_of_same_tuple x n e Hx). by apply same_entry_true.
    + done.
Qed.

(** *** How far the quantity bound is kept *)

Lemma removeItem_keeps_bound itemId state :
  cart_invariant state → cart_invariant (removeItem itemId state).1.
Proof.
  unfold cart_invariant, removeItem. simpl. intros H.
  apply Forall_forall. intros item Hin. apply list_elem_of_filter in Hin as [_ Hin].
  by eapply Forall_forall in H.
Qed.

Lemma clearCart_keeps_bound state : cart_invariant (clearCart state).1.
Proof. constructor. Qed.

(** With a requested quantity of at least 1, [addItem] keeps the bound. *)
Lemma addItem_keeps_bound uuid newItem state :
  1 ≤ quantity newItem →
  cart_invariant state → cart_invariant (addItem uuid newItem state).1.
Proof.
  unfold cart_invariant, addItem. intros Hq H.
  destruct (findIndex (same_entry newItem) (items state)) as [i|] eqn:Hi.
  - destruct (findIndex_find _ _ _ Hi) as (e & He & _ & _). rewrite He.
    destruct (Z.gtb_spec (quantity e + quantity newItem) (maxQuantity e)); [done|].
    simpl. apply Forall_lookup. intros j item. rewrite list_lookup_imap.
    destruct (items state !! j) as [x|] eqn:Hx; [|done]. simpl. intros [= <-].
    assert (quantity_in_bounds x) as Hbx by by eapply Forall_lookup in H.
    case_bool_decide as Hj; [|done]. subst j.
    rewrite He in Hx. injection Hx as ->.
    unfold quantity_in_bounds in *. simpl. lia.
  - destruct (Z.gtb_spec (quantity newItem) (maxQuantity newItem)); [done|].
    simpl. apply Forall_app. split; [done|].
    repeat constructor; simpl; lia.
Qed.

(** With identities that are pairwise distinct, [updateQuantity] keeps the
    bound. *)
Lemma updateQuantity_keeps_bound itemId q state :
  NoDup (map id (items state)) →
  cart_invariant state → cart_invariant (updateQuantity itemId q state).1.
Proof.
  unfold updateQuantity. intros Hnd H.
  destruct (Z.leb_spec q 0); [by apply removeItem_keeps_bound|].
  destruct (find _ (items state)) as [item|] eqn:Hfind; [|done].
  destruct (Z.gtb_spec q (maxQuantity item)); [done|].
  unfold cart_invariant in *. simpl.
  destruct (find_findIndex _ _ _ Hfind) as (i & Hi & Hitem).
  destruct (findIndex_find _ _ _ Hi) as (item' & Hitem' & _ & Hid).
  rewrite Hitem in Hitem'. injection Hitem' as <-.
  apply bool_decide_eq_true in Hid.
  apply Forall_lookup. intros j x. rewrite list_lookup_fmap.
  destruct (items state !! j) as [y|] eqn:Hy; [|done]. simpl. intros [= <-].
  case_bool_decide as Hj; [|by eapply Forall_lookup in H].
  assert (j = i) as ->.
  { eapply NoDup_lookup; [exact Hnd| |].
    - rewrite list_lookup_fmap, Hy. simpl. by rewrite Hj.
    - rewrite list_lookup_fmap, Hitem. simpl. by rewrite Hid. }
  rewrite Hitem in Hy. injection Hy as <-.
  unfold quantity_in_bounds. simpl. lia.
Qed.

(** [updateQuantity(id, 0)] is [removeItem(id)]. *)
Lemma updateQuantity_zero_removes itemId state :
  updateQuantity itemId 0 state = removeItem itemId state.
Proof. reflexivity. Qed.

End CartStore.

Section CartClaims.

Import Cart.

(** C4. A run of [addItem] calls whose items share one (productId,
    variantId, serialized customizations) tuple, started on a cart with no
    entry for that tuple, leaves exactly one entry for the tuple: the first
    item, under the identity generated for it, with the sum of the requested
    quantities, as long as every running total stays within that entry's
    [maxQuantity].  A call whose total would pass the [maxQuantity] of the
    entry it meets (or, with no entry yet, its own [maxQuantity]) leaves the
    cart as it was and fires the capacity toast. *)
Theorem addItem_identical_tuples_merge :
  (∀ (state : CartState) (uuid : string) (n : OmitId) (calls : list (string * OmitId)),
      Forall (λ item, same_entry n item = false) (items state) →
      Forall (λ call, same_tuple call.2 n) calls →
      Forall (λ t, t ≤ maxQuantity n)
             (running_totals 0 (quantity n :: map (λ call, quantity call.2) calls)) →
      items (addItems ((uuid, n) :: calls) state)
      = items state
        ++ [with_quantity {| id := uuid; fields := n |}
              (sum_quantities (quantity n :: map (λ call, quantity call.2) calls))]
      ∧ List.filter (same_entry n) (items (addItems ((uuid, n) :: calls) state))
        = [with_quantity {| id := uuid; fields := n |}
             (sum_quantities (quantity n :: map (λ call, quantity call.2) calls))])
  ∧ (∀ (state : CartState) (uuid : string) (newItem : OmitId) (e : CartItem),
        find (same_entry newItem) (items state) = Some e →
        maxQuantity e < quantity e + quantity newItem →
        addItem uuid newItem state = (state, [CapacityExceeded (maxQuantity e)]))
  ∧ (∀ (state : CartState) (uuid : string) (newItem : OmitId),
        find (same_entry newItem) (items state) = None →
        maxQuantity newItem < quantity newItem →
        addItem uuid newItem state = (state, [CapacityExceeded (maxQuantity newItem)])).
Proof.
  split; [|split].
  - intros state uuid n calls Hfresh Hsame Htot.
    simpl in Htot. inversion Htot as [|? ? Hfirst Hlater]; subst.
    assert (items (addItems ((uuid, n) :: calls) state)
            = items state
              ++ [with_quantity {| id := uuid; fields := n |}
                    (sum_quantities (quantity n :: map (λ call, quantity call.2) calls))])
      as Hitems.
    { simpl addItems. rewrite addItem_append by (done || lia). simpl.
      by rewrite (addItems_merge n calls (items state) {| id := uuid; fields := n |} [] true). }
    split; [done|]. rewrite Hitems, List.filter_app. simpl.
    assert (List.filter (same_entry n) (items state) = []) as ->.
    { clear -Hfresh. induction Hfresh as [|x l Hx _ IH]; simpl; [done|]. by rewrite Hx. }
    assert (same_entry n (with_quantity {| id := uuid; fields := n |}
                            (quantity n + sum_quantities (map (λ call, quantity call.2) calls)))
            = true) as ->; [|done].
    apply same_entry_true. by repeat split.
  - intros. by apply addItem_existing_refused.
  - intros. by apply addItem_new_refused.
Qed.

(** Three calls for the same dupatta (2, then 1, then 2, ceiling 5) end in
    one entry of 5; a fourth call for 1 more is refused. *)
Lemma addItem_identical_tuples_merge_witness :
  items (addItems [("id-1", Samples.dupatta 2 5); ("id-2", Samples.dupatta 1 5);
                   ("id-3", Samples.dupatta 2 5)] initial)
  = [{| id := "id-1"; fields := Samples.dupatta 5 5 |}]
  ∧ addItem "id-4" (Samples.dupatta 1 5)
            {| items := [{| id := "id-1"; fields := Samples.dupatta 5 5 |}]; isOpen := false |}
    = ({| items := [{| id := "id-1"; fields := Samples.dupatta 5 5 |}]; isOpen := false |},
       [CapacityExceeded 5]).
Proof.
  split.
  - refine (proj1 (proj1 addItem_identical_tuples_merge initial "id-1"
                     (Samples.dupatta 2 5)
                     [("id-2", Samples.dupatta 1 5); ("id-3", Samples.dupatta 2 5)]
                     _ _ _)).
    + constructor.
    + repeat constructor.
    + repeat constructor; simpl; lia.
  - refine (proj1 (proj2 addItem_identical_tuples_merge) _ "id-4" (Samples.dupatta 1 5)
                  {| id := "id-1"; fields := Samples.dupatta 5 5 |} _ _).
    + reflexivity.
    + simpl. lia.
Defined.

(** C2. On the empty cart, whose quantities are trivially within bounds,
    [addItem] of a new item with quantity 0 is not refused: the item is
    appended with quantity 0 and the success toast fires, so the resulting
    cart breaks the bound [1 ≤ quantity]; the same holds for quantity -2.
    The store's own [validateCartItem] reports such an item as invalid. *)
Theorem addItem_appends_nonpositive_quantity :
  cart_invariant initial
  ∧ addItem "id-2" (Samples.dupatta 0 5) initial
    = ({| items := [{| id := "id-2"; fields := Samples.dupatta 0 5 |}]; isOpen := true |},
       [ToastSuccess "Dupatta added to cart"; SetTimeoutCloseCart 3000])
  ∧ ¬ cart_invariant (addItem "id-2" (Samples.dupatta 0 5) initial).1
  ∧ ¬ cart_invariant (addItem "id-2" (Samples.dupatta (-2) 5) initial).1
  ∧ validateCartItem (as_partial (Samples.dupatta 0 5)) = ["Valid quantity is required"].
Proof.
  split; [constructor|]. split; [reflexivity|].
  split; [|split; [|reflexivity]].
  - intros H. inversion H as [|? ? [Hlow _] _]. simpl in Hlow. lia.
  - intros H. inversion H as [|? ? [Hlow _] _]. simpl in Hlow. lia.
Qed.

(** C10. For a quantity above 0 and an identity that no item of the cart
    carries, [updateQuantity] returns the state it was given (items and
    visibility flag) and fires no effect at all. *)
Theorem updateQuantity_absent_id_noop (state : CartState) (itemId : string) (q : Z) :
  0 < q →
  Forall (λ item, id item ≠ itemId) (items state) →
  updateQuantity itemId q state = (state, []).
Proof.
  intros Hq Habsent. unfold updateQuantity.
  destruct (Z.leb_spec q 0); [lia|].
  rewrite find_none; [done|].
  eapply Forall_impl; [exact Habsent|]. intros item Hne. simpl.
  by apply bool_decide_eq_false.
Qed.

Lemma updateQuantity_absent_id_noop_witness :
  updateQuantity "id-9" 7 Samples.one_dupatta = (Samples.one_dupatta, []).
Proof.
  apply updateQuantity_absent_id_noop.
  - lia.
  - repeat constructor. simpl. discriminate.
Defined.

End CartClaims.

Section Persistence.

Import Cart.

Lemma as_customizations_to_json (c : Customizations) :
  as_customizations (customizations_to_json c) = Some c.
Proof.
  unfold as_customizations, customizations_to_json.
  induction c as [|[k v] c IH]; simpl; [done|].
  simpl in IH. by rewrite IH.
Qed.

Lemma as_integer_inject_Z (z : Z) : as_integer (JNumber (inject_Z z)) = Some z.
Proof. reflexivity. Qed.

(** Reading back what [item_to_json] wrote gives the item. *)
Lemma item_of_json_to_json (item : CartItem) :
  item_of_json (item_to_json item) = Some item.
Proof.
  destruct item as [i [pid vid nm img pr q sz col cust mx sk]].
  destruct vid, sz, col, cust as [c|];
    cbn -[as_customizations customizations_to_json inject_Z as_integer];
    rewrite ?as_customizations_to_json, ?as_integer_inject_Z; reflexivity.
Qed.

Lemma items_of_json_to_json (l : list CartItem) :
  mapM item_of_json (map item_to_json l) = Some l.
Proof.
  induction l as [|item l IH]; [done|].
  cbn [map mapM]. rewrite item_of_json_to_json. simpl. by rewrite IH.
Qed.

(** C9. Writing the persisted portion of any cart state to storage and
    creating the store again from it restores the item sequence exactly and
    leaves the visibility flag closed, whatever it was before: only [items]
    is part of the persisted portion. *)
Theorem persist_roundtrip (state : CartState) :
  rehydrate (Some (persist_write state))
  = {| items := items state; isOpen := false |}
  ∧ deserialize (serialize (partialize state))
    = Some {| persisted_items := items state |}.
Proof.
  assert (deserialize (serialize (partialize state))
          = Some {| persisted_items := items state |}) as Hback.
  { unfold deserialize, serialize, partialize. cbn [get find fst snd String.eqb].
    simpl. by rewrite items_of_json_to_json. }
  split; [|done].
  unfold rehydrate, persist_write.
  change (Some (serialize (partialize state)) ≫= deserialize)
    with (deserialize (serialize (partialize state))).
  by rewrite Hback.
Qed.

End Persistence.

Section Shipping.

Lemma Qle_bool_false (a b : Q) : Qle_bool a b = false ↔ (b < a)%Q.
Proof.
  split.
  - intros H. apply Qnot_le_lt. intros Hle. apply Qle_bool_iff in Hle. congruence.
  - intros H. destruct (Qle_bool a b) eqn:E; [|done].
    apply Qle_bool_iff in E. exfalso. by apply (Qlt_not_le _ _ H).
Qed.

(** C6. The cart's shipping helper and the checkout's shipping helper agree
    on every subtotal, and both follow the tier schedule: 0 from 150 up,
    9.99 from 100 up, 14.99 from 50 up, 19.99 below 50, each lower bound
    included. *)
Theorem calculateShipping_agree_and_tiers (subtotal : Q) :
  Cart.calculateShipping subtotal = Checkout.calculateShipping subtotal
  ∧ ((150 <= subtotal)%Q → Checkout.calculateShipping subtotal = 0%Q)
  ∧ ((100 <= subtotal)%Q ∧ (subtotal < 150)%Q →
     Checkout.calculateShipping subtotal = 9.99%Q)
  ∧ ((50 <= subtotal)%Q ∧ (subtotal < 100)%Q →
     Checkout.calculateShipping subtotal = 14.99%Q)
  ∧ ((subtotal < 50)%Q → Checkout.calculateShipping subtotal = 19.99%Q).
Proof.
  split; [reflexivity|]. unfold Checkout.calculateShipping.
  repeat split.
  - intros H. apply Qle_bool_iff in H. by rewrite H.
  - intros [H1 H2]. apply Qle_bool_iff in H1. apply Qle_bool_false in H2.
    by rewrite H2, H1.
  - intros [H1 H2]. apply Qle_bool_iff in H1. apply Qle_bool_false in H2.
    assert (Qle_bool 150 subtotal = false) as ->.
    { apply Qle_bool_false. apply Qle_bool_false in H2.
      eapply Qlt_trans; [exact H2|]. reflexivity. }
    by rewrite H2, H1.
  - intros H.
    assert (Qle_bool 50 subtotal = false) as H50 by by apply Qle_bool_false.
    assert (Qle_bool 100 subtotal = false) as ->.
    { apply Qle_bool_false. eapply Qlt_trans; [exact H|]. reflexivity. }
    assert (Qle_bool 150 subtotal = false) as ->.
    { apply Qle_bool_false. eapply Qlt_trans; [exact H|]. reflexivity. }
    by rewrite H50.
Qed.

(** The three subtotals the specification names. *)
Example calculateShipping_samples :
  Checkout.calculateShipping 120 = 9.99%Q
  ∧ Checkout.calculateShipping 150 = 0%Q
  ∧ Checkout.calculateShipping 40 = 19.99%Q
  ∧ Cart.calculateShipping 100 = 9.99%Q
  ∧ Cart.calculateShipping 50 = 14.99%Q
  ∧ Cart.calculateShipping (4999 # 100) = 19.99%Q.
Proof. by repeat split. Qed.

End Shipping.

(** ** Catalog endpoint *)

Section CatalogClaims.

Import Catalog.

Lemma enum_sortBy_none (v : string) :
  enum_sortBy v = None ↔ v ∉ sortBy_names.
Proof.
  unfold enum_sortBy, sortBy_names, sortBy_values.
  cbn [Cart.find fst snd]. rewrite !not_elem_of_cons.
  repeat match goal with
         | |- context [String.eqb ?a v] =>
             destruct (String.eqb_spec a v) as [<-|?]; [split; [done|tauto]|]
         end.
  split; [intros _|done]. repeat split; try done. apply not_elem_of_nil.
Qed.

(** The schema raises an issue exactly on a [sortBy] outside the enum. *)
Lemma ProductQuerySchema_parse_error (queryParams : gmap string string) :
  (∃ issues, ProductQuerySchema_parse queryParams = inl issues)
  ↔ ∃ v, queryParams !! "sortBy" = Some v ∧ v ∉ sortBy_names.
Proof.
  unfold ProductQuerySchema_parse.
  destruct (queryParams !! "sortBy") as [v|] eqn:Hv.
  - destruct (enum_sortBy v) as [sb|] eqn:He.
    + split; [by intros [? ?]|]. intros (w & [= <-] & Hout).
      apply enum_sortBy_none in Hout. congruence.
    + split; [|by eauto]. intros _. exists v. split; [done|].
      by apply enum_sortBy_none.
  - split; [by intros [? ?]|]. by intros (? & ? & _).
Qed.

(** C7, as the endpoint behaves.  A catalog request is answered with the
    validation error (HTTP 400, the body holding only the issues, no
    products) exactly when its [sortBy] parameter is present and outside
    featured, price-asc, price-desc, name, newest.  No value of page,
    limit, minPrice or maxPrice is refused by validation: whatever the
    database layer does with the parsed query, the answer is then 200 or
    500, never 400. *)
Theorem GET_400_iff_sortBy_outside_enum
        (run_query : Query → option Listing) (searchParams : list (string * string)) :
  (status (GET run_query searchParams) = 400
   ↔ ∃ v, fromEntries searchParams !! "sortBy" = Some v ∧ v ∉ sortBy_names)
  ∧ (status (GET run_query searchParams) = 400
     ↔ ∃ issues, body (GET run_query searchParams) = InvalidQueryParameters issues)
  ∧ (status (GET run_query searchParams) = 400
     ∨ status (GET run_query searchParams) = 200
     ∨ status (GET run_query searchParams) = 500).
Proof.
  rewrite <- ProductQuerySchema_parse_error. unfold GET.
  destruct (ProductQuerySchema_parse (fromEntries searchParams)) as [issues|q]; simpl.
  - repeat split; eauto.
  - destruct (run_query q); simpl; repeat split; try done;
      try (by intros [? ?]); auto.
Qed.

(** A page that is not a number, a page below 1, a limit and a price
    bound that are not numbers: none is answered with 400.  The parse
    succeeds with [NaN] (or the out-of-range number) in the query, and the
    status is 200 when the database layer answers, 500 when it throws. *)
Lemma GET_malformed_numbers_not_400 :
  page_at_least_1 "abc" = false
  ∧ page_at_least_1 "0" = false
  ∧ is_numeric "many" = false
  ∧ is_numeric "cheap" = false
  ∧ status (GET (λ _, None) [("page", "abc")]) = 500
  ∧ status (GET (λ _, Some {| products := []; totalCount := 0 |}) [("page", "abc")]) = 200
  ∧ status (GET (λ _, Some {| products := []; totalCount := 0 |}) [("page", "0")]) = 200
  ∧ status (GET (λ _, Some {| products := []; totalCount := 0 |})
                [("limit", "many"); ("minPrice", "cheap")]) = 200
  ∧ (∃ q, ProductQuerySchema_parse (fromEntries [("page", "abc"); ("limit", "many");
                                                 ("minPrice", "cheap")]) = inr q
          ∧ page q = NaN ∧ limit q = NaN ∧ minPrice q = Some NaN).
Proof.
  repeat split; try reflexivity.
  eexists. split; [vm_compute; reflexivity|]. by repeat split.
Qed.

Lemma GET_400_iff_sortBy_outside_enum_witness :
  status (GET (λ _, None) [("sortBy", "cheapest")]) = 400.
Proof.
  apply (proj1 (GET_400_iff_sortBy_outside_enum (λ _, None) [("sortBy", "cheapest")])).
  exists "cheapest". split; [reflexivity|].
  apply enum_sortBy_none. reflexivity.
Defined.

End CatalogClaims.

(** ** Checkout endpoint *)

Section CheckoutLemmas.

Import Checkout.

(** Every response the validation loop returns early is a 400. *)
Lemma validate_lines_early fetched lines lineItems subtotal response :
  validate_lines fetched lines lineItems subtotal = inl response →
  status response = 400.
Proof.
  revert lineItems subtotal.
  induction lines as [|line lines IH]; intros lineItems subtotal; simpl; [done|].
  destruct (find_product fetched (CartLine.productId line)) as [product|];
    [|by intros [= <-]].
  destruct (truthy (CartLine.variantId line)) as [variantId|].
  - destruct (find_variant product variantId) as [v|]; [|by intros [= <-]].
    destruct (_ >? _); [by intros [= <-]|]. apply IH.
  - destruct (_ >? _); [by intros [= <-]|]. apply IH.
Qed.

Lemma find_split {A : Type} (p : A → bool) (l : list A) (x : A) :
  Cart.find p l = Some x →
  ∃ before after,
    l = before ++ x :: after ∧ p x = true ∧ Forall (λ y, p y = false) before.
Proof.
  induction l as [|y l IH]; simpl; [done|].
  destruct (p y) eqn:Hy.
  - intros [= <-]. by exists [], l.
  - intros Hf. destruct (IH Hf) as (before & after & -> & Hx & Hbefore).
    exists (y :: before), after. repeat split; [done|]. by constructor.
Qed.

(** The product a line resolves to among the fetched ones is the first
    active catalog row with the line's product id, with its includes. *)
Lemma find_product_first_active db productIds productId product :
  productId ∈ productIds →
  find_product (product_findMany db productIds) productId = Some product →
  ∃ row, first_active_row db productId row ∧ product = with_includes row.
Proof.
  intros Hin. unfold find_product, product_findMany, first_active_row.
  induction (products db) as [|a l IH]; [done|].
  cbn [List.filter].
  destruct (bool_decide (Product.id a ∈ productIds) && Product.isActive a) eqn:Hf.
  - cbn [map Cart.find]. change (Product.id (with_includes a)) with (Product.id a).
    destruct (String.eqb_spec (Product.id a) productId) as [Heq|Hne].
    + intros [= <-]. exists a. split; [|done]. exists [], l.
      apply andb_prop in Hf as [_ Hactive]. by repeat split.
    + intros Hfind.
      destruct (IH Hfind) as (row & (before & after & -> & Hid & Hactive & Hbefore) & ->).
      exists row. split; [|done]. exists (a :: before), after.
      repeat split; try done. constructor; [by left|done].
  - intros Hfind.
    destruct (IH Hfind) as (row & (before & after & -> & Hid & Hactive & Hbefore) & ->).
    exists row. split; [|done]. exists (a :: before), after.
    repeat split; try done. constructor; [|done].
    apply andb_false_iff in Hf as [Hf|Hf]; [left|by right].
    apply bool_decide_eq_false in Hf. intros Heq. by rewrite Heq in Hf.
Qed.

Lemma find_variant_first row variantId v :
  find_variant (with_includes row) variantId = Some v →
  first_variant row variantId v.
Proof.
  unfold find_variant, first_variant. cbn [with_includes Product.variants].
  intros Hfind. apply find_split in Hfind as (before & after & Heq & Hv & Hbefore).
  exists before, after. repeat split; [done|by apply String.eqb_eq|].
  eapply Forall_impl; [exact Hbefore|]. intros v' Hv'. by apply String.eqb_neq.
Qed.

(** The first image by sort order is one of the images, and no image sorts
    below it. *)
Lemma by_sortOrder_head (l : list ProductImage.t) :
  match by_sortOrder l with
  | [] => l = []
  | x :: _ => x ∈ l ∧ ∀ y, y ∈ l → ProductImage.sortOrder x ≤ ProductImage.sortOrder y
  end.
Proof.
  induction l as [|a l IH]; [done|].
  unfold by_sortOrder in *. cbn [fold_right].
  destruct (fold_right insert_by_sortOrder [] l) as [|x rest]; cbn [insert_by_sortOrder].
  - subst l. split; [by left|]. intros y Hy. apply list_elem_of_singleton in Hy as ->. lia.
  - destruct IH as [Hx Hmin].
    destruct (Z.ltb_spec (ProductImage.sortOrder a) (ProductImage.sortOrder x)).
    + split; [by left|]. intros y Hy. apply elem_of_cons in Hy as [->|Hy]; [lia|].
      specialize (Hmin y Hy). lia.
    + split; [by right|]. intros y Hy. apply elem_of_cons in Hy as [->|Hy]; [lia|].
      by apply Hmin.
Qed.

Lemma first_image_with_includes row :
  first_image row (ProductImage.url <$> head (Product.images (with_includes row))).
Proof.
  unfold first_image. cbn [with_includes Product.images].
  pose proof (by_sortOrder_head (Product.images row)) as H.
  destruct (by_sortOrder (Product.images row)) as [|x rest]; [done|].
  destruct H as [Hx Hmin]. cbn. by exists x.
Qed.

Lemma truthy_Some v s : truthy v = Some s ↔ v = Some s ∧ s ≠ "".
Proof.
  unfold truthy. destruct v as [s'|]; [|by split; [|intros []]].
  destruct (String.eqb_spec s' "") as [->|Hne].
  - split; [done|]. by intros [[= <-] ?].
  - split; [by intros [= <-]|]. by intros [[= <-] ?].
Qed.

Lemma truthy_None v : truthy v = None ↔ v = None ∨ v = Some "".
Proof.
  unfold truthy. destruct v as [s'|]; [|by split; [left|]].
  destruct (String.eqb_spec s' "") as [->|Hne].
  - split; [by right|done].
  - split; [done|]. by intros [|[= ->]].
Qed.

(** When the lines passed validation, the order items are, line by line,
    snapshots of the lines against the catalog, and the subtotal has grown
    by the items' total prices, added in order. *)
Lemma order_items_snapshot db productIds lines :
  ∀ lineItems subtotal lineItems' subtotal' orderItems,
    Forall (λ line, CartLine.productId line ∈ productIds) lines →
    validate_lines (product_findMany db productIds) lines lineItems subtotal
    = inr (lineItems', subtotal') →
    mapM (order_item (product_findMany db productIds)) lines = Some orderItems →
    Forall2 (line_snapshot db) lines orderItems
    ∧ subtotal'
      = fold_left (λ sum oi, Js.add sum (OrderItem.totalPrice oi)) orderItems subtotal.
Proof.
  induction lines as [|line lines IH];
    intros lineItems subtotal lineItems' subtotal' orderItems Hin; simpl.
  - intros [= _ <-] [= <-]. by split; [constructor|].
  - intros Hv Hm. apply Forall_cons in Hin as [Hline Hin].
    destruct (order_item (product_findMany db productIds) line) as [oi|] eqn:Hoi;
      [|done].
    simpl in Hm.
    destruct (mapM (order_item (product_findMany db productIds)) lines)
      as [rest|] eqn:Hrest; [|done].
    simpl in Hm. injection Hm as <-.
    unfold order_item in Hoi.
    destruct (find_product (product_findMany db productIds) (CartLine.productId line))
      as [product|] eqn:Hp; [|done].
    simpl in Hoi. injection Hoi as <-.
    destruct (find_product_first_active _ _ _ _ Hline Hp) as (row & Hrow & ->).
    destruct (truthy (CartLine.variantId line)) as [variantId|] eqn:Htruthy.
    + destruct (find_variant (with_includes row) variantId) as [v|] eqn:Hvariant;
        [|done].
      destruct (_ >? _); [done|].
      destruct (IH _ _ _ _ _ Hin Hv eq_refl) as [Hsnap ->].
      split; [|done]. constructor; [|done].
      apply truthy_Some in Htruthy as [Hvid Hne].
      exists row. repeat split; try done.
      * apply first_image_with_includes.
      * intros variantId' Hvid' _. rewrite Hvid in Hvid'. injection Hvid' as <-.
        exists v. split; [by apply find_variant_first|].
        cbn. split; [done|].
        destruct (String.eqb_spec (Variant.sku v) ""); by split.
      * rewrite Hvid in *. by destruct H as [|[= ->]].
      * rewrite Hvid in *. by destruct H as [|[= ->]].
      * rewrite Hvid in *. by destruct H as [|[= ->]].
    + destruct (_ >? _); [done|].
      destruct (IH _ _ _ _ _ Hin Hv eq_refl) as [Hsnap ->].
      split; [|done]. constructor; [|done].
      apply truthy_None in Htruthy.
      exists row. repeat split; try done.
      * apply first_image_with_includes.
      * intros variantId Hvid Hne.
        destruct Htruthy as [Hn|Hn]; rewrite Hn in Hvid; [done|]. by injection Hvid as <-.
      * cbn. intros sale Hsale. by rewrite Hsale.
      * cbn. intros Hsale. by rewrite Hsale.
Qed.

Lemma order_create_inv env db data order db1 :
  order_create env db data = inr (order, db1) →
  ∃ id, order_create_id env = inr id
        ∧ order = data id
        ∧ db1 = {| products := products db; orders := orders db ++ [order] |}
        ∧ Forall (λ o, String.eqb (Order.id o) id = false) (orders db).
Proof.
  unfold order_create. destruct (order_create_id env) as [e|id]; [done|].
  destruct (existsb _ _) eqn:Hex; [done|]. intros [= <- <-].
  exists id. repeat split.
  apply Forall_forall. intros o Ho.
  destruct (String.eqb (Order.id o) id) eqn:Hid; [|done].
  assert (existsb (λ o, String.eqb (Order.id o) id
                        || String.eqb (Order.orderNumber o) (Order.orderNumber (data id)))
                  (orders db) = true) as Htrue; [|congruence].
  apply existsb_exists. exists o. split; [by apply list_elem_of_In|].
  by rewrite Hid.
Qed.

Lemma order_update_inv env db id sessionId db2 :
  order_update env db id sessionId = inr db2 →
  db2 = {| products := products db;
           orders := map (λ o, if String.eqb (Order.id o) id
                               then set_stripePaymentId sessionId o else o)
                         (orders db) |}.
Proof.
  unfold order_update. destruct (order_update_fault env); [done|].
  destruct (existsb _ _); [|done]. by intros [= <-].
Qed.

Lemma map_untouched_orders id sessionId (l : list Order.t) :
  Forall (λ o, String.eqb (Order.id o) id = false) l →
  map (λ o, if String.eqb (Order.id o) id then set_stripePaymentId sessionId o else o) l
  = l.
Proof.
  induction 1 as [|o l Ho _ IH]; simpl; [done|]. by rewrite Ho, IH.
Qed.

Lemma attempt_cases env request db :
  attempt_result env request db (attempt env request db).
Proof.
  unfold attempt.
  destruct (getServerSession env) as [e|session] eqn:Hsession; [constructor|].
  destruct (json request) as [e|payload] eqn:Hjson; [constructor|].
  destruct (items payload) as [lines|] eqn:Hitems; [|by constructor].
  destruct (length lines =? 0)%nat; [by constructor|].
  destruct (product_findMany_fault env) as [e|]; [constructor|].
  destruct (negb _); [by constructor|].
  destruct (validate_lines _ lines [] Js.zero) as [response|[lineItems subtotal]] eqn:Hvalid.
  { constructor. by eapply validate_lines_early. }
  destruct (mapM _ lines) as [orderItems|] eqn:HorderItems; [|constructor].
  destruct (order_create env db _) as [e|[order db1]] eqn:Hcreate; [constructor|].
  apply order_create_inv in Hcreate as (id & Hid & -> & -> & Hfresh).
  simpl.
  destruct (stripe_sessions_create env _) as [e|checkoutSession].
  { by eapply threw_after_write. }
  destruct (order_update env _ id _) as [e|db2] eqn:Hupdate.
  { by eapply threw_after_write. }
  apply order_update_inv in Hupdate as ->. simpl.
  rewrite map_app, map_untouched_orders by done. simpl.
  rewrite String.eqb_refl.
  by eapply linked.
Qed.

End CheckoutLemmas.

Section CheckoutClaims.

Import Checkout.

(** The availability check compares the number of fetched products with
    the number of submitted lines. *)
Lemma unavailable_when_counts_differ env request db session payload lines :
  getServerSession env = inr session →
  json request = inr payload →
  items payload = Some lines →
  lines ≠ [] →
  product_findMany_fault env = None →
  length (product_findMany db (map CartLine.productId lines)) ≠ length lines →
  POST env request db
  = {| response := bad_request "Some products are no longer available";
       db_after := db; logged := [] |}.
Proof.
  intros Hs Hj Hi Hne Hf Hlen. unfold POST, attempt. rewrite Hs, Hj, Hi, Hf.
  destruct lines as [|line lines]; [done|].
  change (length (line :: lines) =? 0)%nat with false. cbv iota.
  rewrite length_map.
  destruct (Nat.eqb_spec (length (product_findMany db
                                    (map CartLine.productId (line :: lines))))
                         (length (line :: lines))); [done|].
  reflexivity.
Qed.

(** C1. A cart with two sizes of one active lehenga, one of each and both
    in stock: one product is fetched for one distinct product id, so the
    fetched count is not below the distinct count, yet the endpoint answers
    400 "Some products are no longer available" and creates no order.  Each
    of the two lines alone is accepted. *)
Theorem two_variants_of_one_product_refused :
  length (product_findMany Samples.shop (map CartLine.productId Samples.two_sizes)) = 1%nat
  ∧ distinct_ids Samples.two_sizes = 1%nat
  ∧ Forall (λ p, Product.isActive p = true) (products Samples.shop)
  ∧ POST Samples.calm (Samples.request_of Samples.two_sizes) Samples.shop
    = {| response := bad_request "Some products are no longer available";
         db_after := Samples.shop; logged := [] |}
  ∧ status (response (POST Samples.calm
                           (Samples.request_of [Samples.line "p-lehenga" (Some "v-s") 1])
                           Samples.shop)) = 200
  ∧ status (response (POST Samples.calm
                           (Samples.request_of [Samples.line "p-lehenga" (Some "v-m") 1])
                           Samples.shop)) = 200.
Proof.
  split; [reflexivity|]. split; [vm_compute; reflexivity|].
  split; [by repeat constructor|].
  split; [|split; vm_compute; reflexivity].
  eapply unavailable_when_counts_differ; try reflexivity; [done|].
  vm_compute. lia.
Qed.

(** C3. Whenever the endpoint answers 400 (empty item list, unavailable
    product or variant, quantity above the available stock), the database
    is exactly as it was before the request: no order was written, and
    nothing was thrown. *)
Theorem validation_failure_persists_nothing env request db :
  status (response (POST env request db)) = 400 →
  db_after (POST env request db) = db
  ∧ orders (db_after (POST env request db)) = orders db
  ∧ logged (POST env request db) = [].
Proof.
  unfold POST. destruct (attempt_cases env request db); simpl; try done.
Qed.

(** Five sarees against a stock of three. *)
Lemma validation_failure_persists_nothing_witness :
  response (POST Samples.calm (Samples.request_of [Samples.line "p-saree" None 5])
                 Samples.shop)
  = bad_request "Insufficient stock for Silk Saree"
  ∧ orders (db_after (POST Samples.calm
                           (Samples.request_of [Samples.line "p-saree" None 5])
                           Samples.shop)) = [].
Proof.
  split; [reflexivity|].
  apply (validation_failure_persists_nothing
           Samples.calm (Samples.request_of [Samples.line "p-saree" None 5]) Samples.shop).
  reflexivity.
Defined.

Lemma shipping_cost_tiers subtotal : shipping_tiers subtotal (shipping_cost subtotal).
Proof.
  intros q Hq.
  assert (shipping_cost subtotal = Js.toNumber (calculateShipping q)) as ->.
  { destruct subtotal; try done; cbn in Hq |- *; by injection Hq as <-. }
  unfold calculateShipping.
  destruct (Qle_bool 150 q) eqn:H150.
  { apply Qle_bool_iff in H150. repeat split; intros; try done; lra. }
  apply Qle_bool_false in H150.
  destruct (Qle_bool 100 q) eqn:H100.
  { apply Qle_bool_iff in H100. repeat split; intros; try done; lra. }
  apply Qle_bool_false in H100.
  destruct (Qle_bool 50 q) eqn:H50.
  { apply Qle_bool_iff in H50. repeat split; intros; try done; lra. }
  apply Qle_bool_false in H50.
  repeat split; intros; try done; lra.
Qed.

(** C5. Whenever the endpoint answers 200, the orders after the request
    are the orders before it followed by exactly one new order; that order
    is PENDING with payment PENDING, tax 0 and discount 0; its total is its
    subtotal plus its shipping amount, the shipping amount being the
    schedule's value at the subtotal; its subtotal is the sum, in doubles and
    in the order of the lines, of its items' total prices, each the unit
    price times the quantity; and its items are, line by line, the snapshot
    of the catalog row the line's product id resolves to: its name, its first
    image by sort order, and the price and sku of the specified variant, or
    the sale-or-base price and the product's sku when no variant is
    specified. *)
Theorem successful_checkout_creates_one_pending_order env request db :
  status (response (POST env request db)) = 200 →
  ∃ payload lines order,
    json request = inr payload
    ∧ items payload = Some lines
    ∧ orders (db_after (POST env request db)) = orders db ++ [order]
    ∧ products (db_after (POST env request db)) = products db
    ∧ Order.status order = OrderStatus.PENDING
    ∧ Order.paymentStatus order = PaymentStatus.PENDING
    ∧ Order.taxAmount order = Js.zero
    ∧ Order.discountAmount order = Js.zero
    ∧ Order.totalAmount order = Js.add (Order.subtotal order) (Order.shippingAmount order)
    ∧ shipping_tiers (Order.subtotal order) (Order.shippingAmount order)
    ∧ Order.subtotal order = items_total (Order.items order)
    ∧ Forall2 (line_snapshot db) lines (Order.items order)
    ∧ ∃ sessionId url,
        body (response (POST env request db)) = SessionBody sessionId url (Order.id order)
        ∧ Order.stripePaymentId order = Some sessionId.
Proof.
  unfold POST.
  destruct (attempt_cases env request db)
    as [e|response H400|e order
        |payload lines lineItems subtotal orderItems id checkoutSession session
           Hsession Hjson Hitems Hvalid HorderItems Hid Hfresh]; simpl; try done.
  { rewrite H400. done. }
  intros _.
  destruct (order_items_snapshot db (map CartLine.productId lines) lines
              _ _ _ _ _
              ltac:(apply Forall_forall; intros line Hline;
                    by apply (list_elem_of_fmap_2 CartLine.productId))
              Hvalid HorderItems) as [Hsnap Hsum].
  eexists payload, lines, _. simpl.
  repeat match goal with |- _ ∧ _ => split end; try done.
  - apply shipping_cost_tiers.
  - by eexists _, _.
Qed.

(** One bangle at 5.10 and three kurtas at 48.30. *)
Lemma successful_checkout_creates_one_pending_order_witness :
  ∃ payload lines order,
    json (Samples.request_of Samples.bangle_and_kurtas) = inr payload
    ∧ items payload = Some lines
    ∧ orders (db_after (POST Samples.calm (Samples.request_of Samples.bangle_and_kurtas)
                             Samples.boutique))
      = orders Samples.boutique ++ [order]
    ∧ products (db_after (POST Samples.calm (Samples.request_of Samples.bangle_and_kurtas)
                               Samples.boutique))
      = products Samples.boutique
    ∧ Order.status order = OrderStatus.PENDING
    ∧ Order.paymentStatus order = PaymentStatus.PENDING
    ∧ Order.taxAmount order = Js.zero
    ∧ Order.discountAmount order = Js.zero
    ∧ Order.totalAmount order = Js.add (Order.subtotal order) (Order.shippingAmount order)
    ∧ shipping_tiers (Order.subtotal order) (Order.shippingAmount order)
    ∧ Order.subtotal order = items_total (Order.items order)
    ∧ Forall2 (line_snapshot Samples.boutique) lines (Order.items order)
    ∧ ∃ sessionId url,
        body (response (POST Samples.calm (Samples.request_of Samples.bangle_and_kurtas)
                             Samples.boutique))
        = SessionBody sessionId url (Order.id order)
        ∧ Order.stripePaymentId order = Some sessionId.
Proof.
  apply (successful_checkout_creates_one_pending_order
           Samples.calm (Samples.request_of Samples.bangle_and_kurtas) Samples.boutique).
  vm_compute. reflexivity.
Defined.

(** The same checkout, evaluated: the subtotal the handler writes is
    149.99999999999997 (5277655813324799 * 2^-45), below the free-shipping
    threshold, so shipping is 9.99 and the total 159.98999999999998
    (5629147690492231 * 2^-45); the items carry the catalog's names, the
    variant's price and sku, and the first image by sort order; the session
    is charged 510, 4830 and 999 cents. *)
Example checkout_amounts_in_doubles :
  let outcome := POST Samples.calm (Samples.request_of Samples.bangle_and_kurtas)
                      Samples.boutique in
  ∃ order,
    orders (db_after outcome) = [order]
    ∧ Order.subtotal order = S754_finite false 5277655813324799 (-45)
    ∧ Order.shippingAmount order = Js.toNumber 9.99
    ∧ Order.totalAmount order = S754_finite false 5629147690492231 (-45)
    ∧ map (λ oi, (OrderItem.productName oi, OrderItem.productSku oi,
                  OrderItem.unitPrice oi, OrderItem.productImage oi))
          (Order.items order)
      = [("Glass Bangle", "BAN-1", 5.10%Q, None);
         ("Cotton Kurta", "KUR-1-L", 48.30%Q, Some "/img/kurta-front.jpg")]
    ∧ Js.Math_round (Js.mul (Js.toNumber 5.10) (Js.of_Z 100)) = Js.of_Z 510
    ∧ Js.Math_round (Js.mul (Js.toNumber 48.30) (Js.of_Z 100)) = Js.of_Z 4830
    ∧ Js.Math_round (Js.mul (Order.shippingAmount order) (Js.of_Z 100)) = Js.of_Z 999
    ∧ Js.Math_round (Js.mul (Js.toNumber 19.99) (Js.of_Z 100)) = Js.of_Z 1999.
Proof.
  eexists. split; [vm_compute; reflexivity|]. cbn [Order.subtotal Order.shippingAmount
    Order.totalAmount Order.items].
  repeat split; vm_compute; reflexivity.
Qed.

(** C8, as the endpoint behaves.  Whatever is thrown inside the handler,
    the answer is HTTP 500 and the thrown value is logged; the body's
    message is the thrown error's own message when the thrown value is an
    [Error], and the fixed text "Failed to create checkout session" only
    when it is not.  A 500 is answered in no other case. *)
Theorem internal_failure_response env request db :
  (∀ e, (attempt env request db).1 = inl e →
        response (POST env request db)
        = {| status := 500;
             body := ErrorBody match e with
                               | ErrorObject message => message
                               | OtherValue _ => "Failed to create checkout session"
                               end |}
        ∧ logged (POST env request db) = [e])
  ∧ (status (response (POST env request db)) = 500 →
     ∃ e, (attempt env request db).1 = inl e).
Proof.
  unfold POST.
  destruct (attempt_cases env request db) as [e|response H400|e order|]; simpl.
  - split; [|by eauto]. by intros ? [= <-].
  - split; [done|]. rewrite H400. done.
  - split; [|by eauto]. by intros ? [= <-].
  - split; done.
Qed.

(** With the payment provider unreachable, the caller reads the provider
    client's own error text, not the fixed message; the order written just
    before stays. *)
Lemma provider_error_message_reaches_caller :
  response (POST Samples.provider_down
                 (Samples.request_of [Samples.line "p-saree" None 2]) Samples.shop)
  = {| status := 500; body := ErrorBody "connect ECONNREFUSED 10.0.0.5:443" |}
  ∧ "connect ECONNREFUSED 10.0.0.5:443" ≠ "Failed to create checkout session"
  ∧ logged (POST Samples.provider_down
                 (Samples.request_of [Samples.line "p-saree" None 2]) Samples.shop)
    = [ErrorObject "connect ECONNREFUSED 10.0.0.5:443"]
  ∧ length (orders (db_after (POST Samples.provider_down
                                   (Samples.request_of [Samples.line "p-saree" None 2])
                                   Samples.shop))) = 1%nat.
Proof. by repeat split. Qed.

Lemma internal_failure_response_witness :
  response (POST Samples.provider_down
                 (Samples.request_of [Samples.line "p-saree" None 2]) Samples.shop)
  = {| status := 500; body := ErrorBody "connect ECONNREFUSED 10.0.0.5:443" |}
  ∧ logged (POST Samples.provider_down
                 (Samples.request_of [Samples.line "p-saree" None 2]) Samples.shop)
    = [ErrorObject "connect ECONNREFUSED 10.0.0.5:443"].
Proof.
  apply (proj1 (internal_failure_response
                  Samples.provider_down
                  (Samples.request_of [Samples.line "p-saree" None 2]) Samples.shop)
               (ErrorObject "connect ECONNREFUSED 10.0.0.5:443")).
  reflexivity.
Defined.

End CheckoutClaims.

(** ** Cart store: totals, queries and structural invariants *)

Section CartTotals.

Import Cart.

Lemma findIndex_split {A : Type} (p : A → bool) (l : list A) (i : nat) :
  findIndex p l = Some i →
  ∃ l1 e r, l = l1 ++ e :: r ∧ Forall (λ x, p x = false) l1 ∧ p e = true
            ∧ find p l = Some e.
Proof.
  revert i. induction l as [|y l IH]; intros i; simpl; [done|].
  destruct (p y) eqn:Hy.
  - intros _. by exists [], y, l.
  - destruct (findIndex p l) as [j|]; [|done]. intros _.
    destruct (IH j eq_refl) as (l1 & e & r & -> & Hl1 & He & Hf).
    exists (y :: l1), e, r. repeat split; try done. by constructor.
Qed.

Lemma getTotalItems_total_quantity state :
  getTotalItems state = total_quantity (items state).
Proof.
  unfold getTotalItems.
  assert (∀ l a, fold_left (λ total (item : CartItem), total + quantity item) l a
                 = a + total_quantity l) as H.
  { induction l as [|x l IH]; intros a; simpl; [lia|]. rewrite IH. lia. }
  by rewrite H.
Qed.


Lemma total_quantity_app l k :
  total_quantity (l ++ k) = total_quantity l + total_quantity k.
Proof. induction l as [|x l IH]; simpl; [done|]. rewrite IH. lia. Qed.



(** X2. In a cart whose quantities are all at least 1, [hasItem] answers
    true for a (product, variant) pair exactly when [getItemCount] for that
    pair is above 0. *)
Theorem hasItem_iff_positive_count pid vid state :
  cart_invariant state →
  hasItem pid vid state = true ↔ 0 < getItemCount pid vid state.
Proof.
  unfold cart_invariant, hasItem, getItemCount. intros Hinv.
  assert (∀ l a, fold_left (λ total (item : CartItem), total + quantity item) l a
                 = a + total_quantity l) as H.
  { induction l as [|x l IH]; intros a; simpl; [lia|]. rewrite IH. lia. }
  rewrite H, Z.add_0_l. clear H.
  induction Hinv as [|x l [Hx _] Hl IH]; simpl; [split; [done|lia]|].
  assert (0 ≤ total_quantity (List.filter (same_product pid vid) l)) as Hnonneg.
  { clear -Hl. induction Hl as [|y l [Hy _] _ IH]; simpl; [done|].
    destruct (same_product pid vid y); simpl; lia. }
  destruct (same_product pid vid x); simpl.
  - split; [lia|done].
  - exact IH.
Qed.

Lemma hasItem_iff_positive_count_witness :
  hasItem "p-dupatta" None Samples.one_dupatta = true
  ↔ 0 < getItemCount "p-dupatta" None Samples.one_dupatta.
Proof.
  apply hasItem_iff_positive_count.
  repeat constructor; simpl; lia.
Defined.

End CartTotals.

Section CartStructure.

Import Cart.

Lemma filter_all_kept {A : Type} (P : A → Prop) `{∀ x, Decision (P x)} (l : list A) :
  Forall P l → filter P l = l.
Proof.
  induction 1 as [|x l Hx _ IH]; [done|]. by rewrite filter_cons_True, IH.
Qed.

(** X3. [removeItem] with an identity that no entry carries returns the
    state it was given and shows no toast. *)
Theorem removeItem_absent_id_noop itemId state :
  Forall (λ item, id item ≠ itemId) (items state) →
  removeItem itemId state = (state, []).
Proof.
  intros Habsent. unfold removeItem.
  rewrite find_none.
  - rewrite filter_all_kept by done. by destruct state.
  - eapply Forall_impl; [exact Habsent|]. intros item Hne. simpl.
    by apply bool_decide_eq_false.
Qed.

Lemma removeItem_absent_id_noop_witness :
  removeItem "id-9" Samples.one_dupatta = (Samples.one_dupatta, []).
Proof.
  apply removeItem_absent_id_noop. repeat constructor. simpl. discriminate.
Defined.

(** X4. After [removeItem], an entry is in the cart exactly when it was
    there before and carries another identity; the entries that stay keep
    their order and the visibility flag is untouched; the toast is shown
    exactly when some entry carried the identity; and removing the same
    identity again changes nothing and shows nothing. *)
Theorem removeItem_removes_exactly itemId state :
  (∀ item, item ∈ items (removeItem itemId state).1
           ↔ item ∈ items state ∧ id item ≠ itemId)
  ∧ sublist (items (removeItem itemId state).1) (items state)
  ∧ isOpen (removeItem itemId state).1 = isOpen state
  ∧ ((removeItem itemId state).2 = [] ↔ Forall (λ item, id item ≠ itemId) (items state))
  ∧ removeItem itemId (removeItem itemId state).1 = ((removeItem itemId state).1, []).
Proof.
  split; [|split; [|split; [|split]]].
  - intros item. unfold removeItem. simpl. rewrite list_elem_of_filter. tauto.
  - apply sublist_filter.
  - reflexivity.
  - unfold removeItem. simpl.
    destruct (find _ (items state)) as [item|] eqn:Hf.
    + split; [done|]. intros Hall.
      rewrite find_none in Hf; [done|].
      eapply Forall_impl; [exact Hall|]. intros x Hne. simpl.
      by apply bool_decide_eq_false.
    + split; [intros _|done]. clear -Hf.
      induction (items state) as [|x l IH]; simpl in *; [done|].
      case_bool_decide as Hx; [done|]. constructor; auto.
  - apply removeItem_absent_id_noop. unfold removeItem. simpl.
    apply Forall_forall. intros item Hin. by apply list_elem_of_filter in Hin as [? _].
Qed.

(** X5. With pairwise distinct identities, [updateQuantity] of an entry
    that is in the cart, to a quantity from 1 up to that entry's
    [maxQuantity], shows no toast and leaves the visibility flag and the
    sequence of identities as they were; the entry now has the requested
    quantity, every other entry is unchanged, and the total item count has
    moved by the difference. *)
Theorem updateQuantity_sets_one_entry itemId q state (item : CartItem) :
  unique_ids state →
  find (λ x, bool_decide (id x = itemId)) (items state) = Some item →
  0 < q → q ≤ maxQuantity item →
  (updateQuantity itemId q state).2 = []
  ∧ isOpen (updateQuantity itemId q state).1 = isOpen state
  ∧ map id (items (updateQuantity itemId q state).1) = map id (items state)
  ∧ find (λ x, bool_decide (id x = itemId)) (items (updateQuantity itemId q state).1)
    = Some (with_quantity item q)
  ∧ (∀ x, x ∈ items state → id x ≠ itemId → x ∈ items (updateQuantity itemId q state).1)
  ∧ getTotalItems (updateQuantity itemId q state).1
    = getTotalItems state - quantity item + q.
Proof.
  intros Hnd Hfind Hq Hmax. unfold updateQuantity.
  destruct (Z.leb_spec q 0); [lia|]. rewrite Hfind.
  destruct (Z.gtb_spec q (maxQuantity item)); [lia|]. simpl.
  rewrite !getTotalItems_total_quantity. simpl.
  destruct (find_findIndex _ _ _ Hfind) as (i & Hi & _).
  destruct (findIndex_split _ _ _ Hi) as (l1 & e & r & Hl & Hl1 & He & Hf).
  rewrite Hf in Hfind. injection Hfind as ->.
  apply bool_decide_eq_true in He.
  unfold unique_ids in Hnd. rewrite Hl in Hnd |- *.
  rewrite fmap_app, fmap_cons in Hnd.
  apply NoDup_app in Hnd as (_ & _ & Hnd). apply NoDup_cons in Hnd as [Hr _].
  assert (∀ l, Forall (λ x, id x ≠ itemId) l →
               map (λ x, if bool_decide (id x = itemId) then with_quantity x q else x) l = l)
    as Hsame.
  { induction 1 as [|x l Hx _ IH]; simpl; [done|].
    by rewrite bool_decide_eq_false_2, IH. }
  assert (Forall (λ x, id x ≠ itemId) l1) as Hl1'.
  { eapply Forall_impl; [exact Hl1|]. intros x Hx. simpl in Hx.
    by apply bool_decide_eq_false in Hx. }
  assert (Forall (λ x, id x ≠ itemId) r) as Hr'.
  { apply Forall_forall. intros x Hx Heq. apply Hr. rewrite He, <- Heq.
    apply list_elem_of_fmap. eauto. }
  rewrite map_app. simpl. rewrite bool_decide_eq_true_2 by done.
  rewrite (Hsame l1 Hl1'), (Hsame r Hr').
  repeat split.
  - rewrite !map_app. simpl. done.
  - clear -Hl1 He. induction Hl1 as [|x l Hx _ IH]; simpl.
    + by rewrite bool_decide_eq_true_2.
    + by rewrite Hx.
  - intros x Hx Hne. apply elem_of_app in Hx as [Hx|Hx].
    + apply elem_of_app. by left.
    + apply elem_of_cons in Hx as [->|Hx]; [done|].
      apply elem_of_app. right. by apply elem_of_cons; right.
  - rewrite !total_quantity_app. simpl. lia.
Qed.

Lemma updateQuantity_sets_one_entry_witness :
  (updateQuantity "id-1" 4 Samples.one_dupatta).2 = []
  ∧ isOpen (updateQuantity "id-1" 4 Samples.one_dupatta).1 = isOpen Samples.one_dupatta
  ∧ map id (items (updateQuantity "id-1" 4 Samples.one_dupatta).1)
    = map id (items Samples.one_dupatta)
  ∧ find (λ x, bool_decide (id x = "id-1"))
         (items (updateQuantity "id-1" 4 Samples.one_dupatta).1)
    = Some (with_quantity {| id := "id-1"; fields := Samples.dupatta 2 5 |} 4)
  ∧ (∀ x, x ∈ items Samples.one_dupatta → id x ≠ "id-1" →
          x ∈ items (updateQuantity "id-1" 4 Samples.one_dupatta).1)
  ∧ getTotalItems (updateQuantity "id-1" 4 Samples.one_dupatta).1
    = getTotalItems Samples.one_dupatta
      - quantity {| id := "id-1"; fields := Samples.dupatta 2 5 |} + 4.
Proof.
  apply (updateQuantity_sets_one_entry "id-1" 4 Samples.one_dupatta
           {| id := "id-1"; fields := Samples.dupatta 2 5 |}).
  - repeat constructor. apply not_elem_of_nil.
  - reflexivity.
  - lia.
  - simpl. lia.
Defined.

End CartStructure.

Section CartInvariants.

Import Cart.

(** What [addItem] can do to the item sequence: nothing, rewrite the
    quantity of the first matching entry, or append the new entry when none
    matches. *)
Lemma addItem_shape uuid newItem state :
  items (addItem uuid newItem state).1 = items state
  ∨ (∃ l1 (e : CartItem) r,
        items state = l1 ++ e :: r
        ∧ items (addItem uuid newItem state).1
          = l1 ++ with_quantity e (quantity e + quantity newItem) :: r)
  ∨ (Forall (λ item, same_entry newItem item = false) (items state)
     ∧ items (addItem uuid newItem state).1
       = items state ++ [{| id := uuid; fields := newItem |}]).
Proof.
  destruct state as [l open]. simpl.
  destruct (findIndex (same_entry newItem) l) as [i|] eqn:Hi.
  - destruct (findIndex_split _ _ _ Hi) as (l1 & e & r & -> & Hl1 & He & Hf).
    destruct (Z_le_gt_dec (quantity e + quantity newItem) (maxQuantity e)) as [Hle|Hgt].
    + right; left. exists l1, e, r. by rewrite addItem_merge.
    + left. by rewrite (addItem_existing_refused uuid newItem _ e) by (done || simpl; lia).
  - assert (Forall (λ item, same_entry newItem item = false) l) as Hall.
    { clear -Hi. induction l as [|y l IH]; simpl in *; [done|].
      destruct (same_entry newItem y) eqn:Hy; [done|].
      destruct (findIndex (same_entry newItem) l); [done|]. constructor; auto. }
    destruct (Z_le_gt_dec (quantity newItem) (maxQuantity newItem)) as [Hle|Hgt].
    + right; right. split; [done|]. by rewrite addItem_append.
    + left. rewrite addItem_new_refused; [done| |simpl; lia]. by apply find_none.
Qed.

Lemma updateQuantity_shape itemId q state :
  items (updateQuantity itemId q state).1 = items state
  ∨ items (updateQuantity itemId q state).1
    = filter (λ item, id item ≠ itemId) (items state)
  ∨ items (updateQuantity itemId q state).1
    = map (λ item, if bool_decide (id item = itemId) then with_quantity item q else item)
          (items state).
Proof.
  unfold updateQuantity. destruct (q <=? 0); [by right; left|].
  destruct (find _ (items state)) as [item|]; [|by left].
  destruct (q >? maxQuantity item); [by left|by right; right].
Qed.

Lemma NoDup_fmap_filter {A B : Type} (f : A → B) (P : A → Prop)
      `{∀ x, Decision (P x)} (l : list A) :
  NoDup (map f l) → NoDup (map f (filter P l)).
Proof.
  induction l as [|x l IH]; simpl; [done|].
  intros [Hx Hnd]%NoDup_cons. rewrite filter_cons.
  destruct (decide (P x)); [|by apply IH].
  simpl. apply NoDup_cons. split; [|by apply IH].
  intros Hin. apply Hx.
  apply list_elem_of_fmap in Hin as (y & -> & Hy).
  apply list_elem_of_filter in Hy as [_ Hy].
  apply list_elem_of_fmap. eauto.
Qed.

(** X6. Pairwise distinct identities are kept by every action of the store:
    by [removeItem], [updateQuantity] and [clearCart] always, and by
    [addItem] whenever the identity generated for the call is not already in
    the cart. *)
Theorem unique_ids_kept state :
  unique_ids state →
  (∀ uuid newItem, uuid ∉ map id (items state) →
                   unique_ids (addItem uuid newItem state).1)
  ∧ (∀ itemId, unique_ids (removeItem itemId state).1)
  ∧ (∀ itemId q, unique_ids (updateQuantity itemId q state).1)
  ∧ unique_ids (clearCart state).1.
Proof.
  unfold unique_ids. intros Hnd. split; [|split; [|split]].
  - intros uuid newItem Hfresh.
    destruct (addItem_shape uuid newItem state)
      as [->|[(l1 & e & r & Hl & ->)|[_ ->]]]; [done| |].
    + rewrite Hl in Hnd. by rewrite map_app in *.
    + rewrite map_app. apply NoDup_app. repeat split; [done| |].
      * intros x Hx Hin. apply list_elem_of_singleton in Hin. by subst.
      * apply NoDup_singleton.
  - intros itemId. by apply NoDup_fmap_filter.
  - intros itemId q.
    destruct (updateQuantity_shape itemId q state) as [->|[->| ->]]; [done| |].
    + by apply NoDup_fmap_filter.
    + rewrite map_map.
      erewrite map_ext; [exact Hnd|]. intros x. simpl. by case_bool_decide.
  - constructor.
Qed.

Lemma unique_ids_kept_witness :
  unique_ids (addItem "id-2" (Samples.dupatta 1 5) Samples.one_dupatta).1.
Proof.
  refine (proj1 (unique_ids_kept Samples.one_dupatta _) "id-2" (Samples.dupatta 1 5) _).
  - repeat constructor. apply not_elem_of_nil.
  - simpl. intros H. apply list_elem_of_singleton in H. discriminate.
Defined.

Lemma same_entry_tuple_key (newItem : OmitId) (item : CartItem) :
  same_entry newItem item = true ↔ tuple_key item = tuple_key newItem.
Proof.
  rewrite same_entry_true. unfold same_tuple, tuple_key.
  split; [by intros (-> & -> & ->)|]. by intros [= -> -> ->].
Qed.

(** X7. A cart in which no two entries share a (productId, variantId,
    serialized customizations) tuple stays so under every action of the
    store: [addItem] appends only when no entry has the new item's tuple, and
    otherwise rewrites a quantity in place. *)
Theorem distinct_tuples_kept state :
  distinct_tuples state →
  (∀ uuid newItem, distinct_tuples (addItem uuid newItem state).1)
  ∧ (∀ itemId, distinct_tuples (removeItem itemId state).1)
  ∧ (∀ itemId q, distinct_tuples (updateQuantity itemId q state).1)
  ∧ distinct_tuples (clearCart state).1.
Proof.
  unfold distinct_tuples. intros Hnd. split; [|split; [|split]].
  - intros uuid newItem.
    destruct (addItem_shape uuid newItem state)
      as [->|[(l1 & e & r & Hl & ->)|[Hnone ->]]]; [done| |].
    + rewrite Hl in Hnd. by rewrite map_app in *.
    + rewrite map_app. apply NoDup_app. repeat split; [done| |].
      * intros k Hk Hin. apply list_elem_of_singleton in Hin. subst k.
        apply list_elem_of_fmap in Hk as (item & Hkey & Hitem).
        eapply Forall_forall in Hnone; [|exact Hitem].
        assert (same_entry newItem item = true) as Htrue; [|congruence].
        by apply same_entry_tuple_key.
      * apply NoDup_singleton.
  - intros itemId. by apply NoDup_fmap_filter.
  - intros itemId q.
    destruct (updateQuantity_shape itemId q state) as [->|[->| ->]]; [done| |].
    + by apply NoDup_fmap_filter.
    + rewrite map_map.
      erewrite map_ext; [exact Hnd|]. intros x. simpl. by case_bool_decide.
  - constructor.
Qed.

Lemma distinct_tuples_kept_witness :
  distinct_tuples (addItem "id-2" (Samples.dupatta 1 5) Samples.one_dupatta).1.
Proof.
  refine (proj1 (distinct_tuples_kept Samples.one_dupatta _) "id-2" (Samples.dupatta 1 5)).
  repeat constructor. apply not_elem_of_nil.
Defined.

End CartInvariants.

Section CartValidation.

Import Cart.

Lemma no_error_iff (b : bool) (msg : string) :
  (if b then [msg] else []) = [] ↔ b = false.
Proof. by destruct b. Qed.

Lemma positive_price_iff (p : Q) :
  negb (truthy_Q (Some p)) || Qle_bool p 0 = false ↔ (0 < p)%Q.
Proof.
  unfold truthy_Q. rewrite negb_involutive, orb_false_iff.
  rewrite Qle_bool_false. split; [tauto|]. intros Hp. split; [|done].
  destruct (Qeq_bool p 0) eqn:E; [|done].
  apply Qeq_bool_iff in E. rewrite E in Hp. by apply Qlt_irrefl in Hp.
Qed.

(** X8. [validateCartItem] reports no error exactly when the product id and
    the name are present and not empty, the price is present and above 0,
    the quantity is present and above 0, and the quantity does not exceed
    [maxQuantity] unless [maxQuantity] is absent or 0 (a [maxQuantity] of 0
    is not checked against). *)
Theorem validateCartItem_passes_iff (item : PartialItem) :
  validateCartItem item = []
  ↔ truthy_string (partial_productId item) = true
    ∧ truthy_string (partial_name item) = true
    ∧ (∃ p, partial_price item = Some p ∧ (0 < p)%Q)
    ∧ (∃ q, partial_quantity item = Some q ∧ 0 < q
            ∧ ∀ m, partial_maxQuantity item = Some m → m = 0 ∨ q ≤ m).
Proof.
  unfold validateCartItem.
  rewrite !app_nil, !no_error_iff, !negb_false_iff.
  destruct item as [pid nm pr qt mx]; simpl.
  assert ((negb (truthy_Q pr) || from_option (λ p, Qle_bool p 0) false pr = false)
          ↔ ∃ p, pr = Some p ∧ (0 < p)%Q) as ->.
  { destruct pr as [p|]; simpl.
    - rewrite (positive_price_iff p). split; [by eauto|]. by intros (? & [= <-] & ?).
    - split; [done|]. by intros (? & ? & _). }
  destruct qt as [q|]; simpl.
  - destruct mx as [m|]; simpl.
    + rewrite no_error_iff, orb_false_iff, negb_false_iff, !andb_false_iff,
        !negb_false_iff, negb_true_iff, !Z.eqb_eq, Z.eqb_neq, Z.leb_gt, Z.gtb_ltb,
        Z.ltb_ge.
      split.
      * intros (Hp & Hn & Hpr & [Hq0 Hq] & Hm). repeat split; try done.
        exists q. repeat split; [done|]. intros m' [= <-]. lia.
      * intros (Hp & Hn & Hpr & (q' & [= <-] & Hq & Hm)). repeat split; try done; try lia.
        destruct (Hm m eq_refl); lia.
    + rewrite orb_false_iff, negb_false_iff, negb_true_iff, Z.eqb_neq, Z.leb_gt.
      split.
      * intros (Hp & Hn & Hpr & [Hq0 Hq] & _). repeat split; try done.
        exists q. by repeat split.
      * intros (Hp & Hn & Hpr & (q' & [= <-] & Hq & Hm)). repeat split; try done; lia.
  - split; [by intros (_ & _ & _ & ? & _)|]. by intros (_ & _ & _ & (? & ? & _)).
Qed.

(** X9. A new item that passes [validateCartItem] and has no matching entry
    in the cart is appended by [addItem] when its [maxQuantity] is not 0,
    and the quantity bound of the cart is kept; when its [maxQuantity] is 0
    the same item, valid for [validateCartItem], is refused by [addItem]. *)
Theorem validated_item_accepted_unless_ceiling_0 uuid (newItem : OmitId) state :
  validateCartItem (as_partial newItem) = [] →
  Forall (λ item, same_entry newItem item = false) (items state) →
  cart_invariant state →
  (maxQuantity newItem ≠ 0 →
   items (addItem uuid newItem state).1
   = items state ++ [{| id := uuid; fields := newItem |}]
   ∧ cart_invariant (addItem uuid newItem state).1)
  ∧ (maxQuantity newItem = 0 →
     addItem uuid newItem state = (state, [CapacityExceeded 0])).
Proof.
  intros Hvalid Hnone Hinv.
  apply validateCartItem_passes_iff in Hvalid
    as (_ & _ & _ & (q & [= <-] & Hq & Hm)).
  specialize (Hm (maxQuantity newItem) eq_refl).
  split.
  - intros Hne. assert (quantity newItem ≤ maxQuantity newItem) as Hle by lia.
    split.
    + by rewrite addItem_append.
    + apply addItem_keeps_bound; [lia|done].
  - intros H0. rewrite addItem_new_refused; [by rewrite H0| |lia].
    by apply find_none.
Qed.

Lemma validated_item_accepted_unless_ceiling_0_witness :
  (maxQuantity (Samples.dupatta 2 5) ≠ 0 →
   items (addItem "id-1" (Samples.dupatta 2 5) initial).1
   = items initial ++ [{| id := "id-1"; fields := Samples.dupatta 2 5 |}]
   ∧ cart_invariant (addItem "id-1" (Samples.dupatta 2 5) initial).1)
  ∧ (maxQuantity (Samples.dupatta 2 5) = 0 →
     addItem "id-1" (Samples.dupatta 2 5) initial = (initial, [CapacityExceeded 0])).
Proof.
  apply validated_item_accepted_unless_ceiling_0.
  - reflexivity.
  - constructor.
  - constructor.
Defined.

End CartValidation.

Section ShippingShape.

(** X10. The shipping cost never rises with the subtotal, and it is always
    one of 0, 9.99, 14.99 and 19.99. *)
Theorem calculateShipping_antitone (a b : Q) :
  (a <= b)%Q →
  (Checkout.calculateShipping b <= Checkout.calculateShipping a)%Q
  ∧ Checkout.calculateShipping b ∈ [0%Q; 9.99%Q; 14.99%Q; 19.99%Q].
Proof.
  intros Hab. unfold Checkout.calculateShipping.
  destruct (Qle_bool 150 a) eqn:Ha1; destruct (Qle_bool 100 a) eqn:Ha2;
    destruct (Qle_bool 50 a) eqn:Ha3;
    destruct (Qle_bool 150 b) eqn:Hb1; destruct (Qle_bool 100 b) eqn:Hb2;
    destruct (Qle_bool 50 b) eqn:Hb3;
    rewrite ?Qle_bool_iff, ?Qle_bool_false in *;
    (split; [try lra; try (by compute)|set_solver]).
Qed.

Lemma calculateShipping_antitone_witness :
  (Checkout.calculateShipping 120 <= Checkout.calculateShipping 60)%Q
  ∧ Checkout.calculateShipping 120 ∈ [0%Q; 9.99%Q; 14.99%Q; 19.99%Q].
Proof.
  apply calculateShipping_antitone. by compute.
Defined.

End ShippingShape.

(** ** Checkout endpoint: validation, writes and amounts *)

Section CheckoutValidation.

Import Checkout.

Lemma remove_dups_length_le {A : Type} `{EqDecision A} (l : list A) :
  (length (remove_dups l) ≤ length l)%nat.
Proof.
  induction l as [|x l IH]; simpl; [done|].
  destruct (decide_rel _ x l); simpl; lia.
Qed.

Lemma remove_dups_shorter {A : Type} `{EqDecision A} (l : list A) :
  ¬ NoDup l → (length (remove_dups l) < length l)%nat.
Proof.
  induction l as [|x l IH]; simpl.
  - intros H. destruct H. constructor.
  - intros Hdup. pose proof (remove_dups_length_le l).
    destruct (decide_rel _ x l) as [Hin|Hout]; simpl; [lia|].
    assert (¬ NoDup l) as Hl.
    { intros Hl. apply Hdup. by constructor. }
    specialize (IH Hl). lia.
Qed.

(** With unique product ids in the catalog, no more products are fetched
    than there are distinct ids in the request. *)
Lemma product_findMany_length db productIds :
  NoDup (map Product.id (products db)) →
  (length (product_findMany db productIds) ≤ length (remove_dups productIds))%nat.
Proof.
  intros Hnd. unfold product_findMany. rewrite length_map.
  set (kept := List.filter _ (products db)).
  assert (NoDup (map Product.id kept) ∧ ∀ x, x ∈ map Product.id kept → x ∈ productIds)
    as [Hk Hsub].
  { subst kept. induction (products db) as [|p l IH]; simpl.
    - split; [constructor|]. intros x Hx. by apply elem_of_nil in Hx.
    - apply NoDup_cons in Hnd as [Hp Hl]. destruct (IH Hl) as [IH1 IH2].
      destruct (bool_decide (Product.id p ∈ productIds) && Product.isActive p) eqn:E;
        [|done].
      apply andb_true_iff in E as [E _]. apply bool_decide_eq_true in E.
      simpl. split.
      + apply NoDup_cons. split; [|done]. intros Hin. apply Hp.
        apply list_elem_of_fmap in Hin as (y & Hy & Hin).
        apply list_elem_of_In, filter_In in Hin as [Hin _].
        apply list_elem_of_fmap. exists y. split; [done|]. by apply list_elem_of_In.
      + intros x Hx. apply elem_of_cons in Hx as [->|Hx]; auto. }
  rewrite <- (length_map Product.id kept).
  apply submseteq_length, NoDup_submseteq; [done|].
  intros x Hx. apply elem_of_remove_dups. auto.
Qed.

(** X11. When the catalog's product ids are unique and two lines of the
    submitted cart share a productId, the endpoint answers 400 "Some
    products are no longer available" and writes nothing, whatever the
    products, variants, stock and quantities are. *)
Theorem shared_productId_always_refused env request db session payload lines :
  getServerSession env = inr session →
  json request = inr payload →
  items payload = Some lines →
  product_findMany_fault env = None →
  NoDup (map Product.id (products db)) →
  ¬ NoDup (map CartLine.productId lines) →
  POST env request db
  = {| response := bad_request "Some products are no longer available";
       db_after := db; logged := [] |}.
Proof.
  intros Hs Hj Hi Hf Hcat Hdup.
  eapply unavailable_when_counts_differ; try done.
  - intros ->. apply Hdup. constructor.
  - pose proof (product_findMany_length db (map CartLine.productId lines) Hcat).
    pose proof (remove_dups_shorter _ Hdup) as Hlt. rewrite length_map in Hlt. lia.
Qed.

Lemma shared_productId_always_refused_witness :
  POST Samples.calm (Samples.request_of Samples.two_sizes) Samples.shop
  = {| response := bad_request "Some products are no longer available";
       db_after := Samples.shop; logged := [] |}.
Proof.
  eapply (shared_productId_always_refused Samples.calm _ Samples.shop);
    try reflexivity.
  - refine (bool_decide_unpack _ _). vm_compute. exact I.
  - intros H. apply NoDup_cons in H as [H _]. apply H. simpl. constructor.
Defined.

(** X12. The validation loop lets a cart through exactly when every line
    passes (product fetched, specified variant present on it, quantity within
    stock); it then hands one Stripe line item per cart line, in order, and
    refuses otherwise. *)
Theorem validate_lines_passes_iff fetched lines lineItems subtotal :
  ((∃ out, validate_lines fetched lines lineItems subtotal = inr out)
   ↔ forallb (line_passes fetched) lines = true)
  ∧ (∀ lineItems' subtotal',
        validate_lines fetched lines lineItems subtotal = inr (lineItems', subtotal') →
        ∃ added, lineItems' = lineItems ++ added
                 ∧ map LineItem.quantity added = map CartLine.quantity lines
                 ∧ map LineItem.name added
                   = map (λ line, from_option Product.name ""
                                    (find_product fetched (CartLine.productId line)))
                         lines).
Proof.
  revert lineItems subtotal.
  induction lines as [|line lines IH]; intros lineItems subtotal.
  - simpl. split.
    + split; [done|eauto].
    + intros ? ? [= <- <-]. exists []. by rewrite app_nil_r.
  - cbn [validate_lines forallb]. unfold line_passes at 1.
    destruct (find_product fetched (CartLine.productId line)) as [product|] eqn:Hp.
    2:{ split; [|done]. split; [by intros [? ?]|done]. }
    destruct (truthy (CartLine.variantId line)) as [variantId|].
    + destruct (find_variant product variantId) as [v|].
      2:{ split; [|done]. split; [by intros [? ?]|done]. }
      cbn [available_stock]. rewrite Z.gtb_ltb.
      destruct (Z.leb_spec (CartLine.quantity line) (Variant.stockQuantity v)) as [Hle|Hgt].
      * destruct (Z.ltb_spec (Variant.stockQuantity v) (CartLine.quantity line)); [lia|].
        destruct (IH (lineItems ++ [line_item product (Some v) line])
                     (Js.add subtotal (Js.mul (Js.toNumber (unit_price product (Some v)))
                                          (Js.of_Z (CartLine.quantity line))))) as [IH1 IH2].
        split; [by rewrite IH1|].
        intros l' s' Hv. destruct (IH2 _ _ Hv) as (added & -> & Hq & Hn).
        exists (line_item product (Some v) line :: added).
        rewrite <- app_assoc. simpl. by rewrite Hq, Hn, Hp.
      * destruct (Z.ltb_spec (Variant.stockQuantity v) (CartLine.quantity line)); [|lia].
        split; [|done]. split; [by intros [? ?]|done].
    + cbn [available_stock]. rewrite Z.gtb_ltb.
      destruct (Z.leb_spec (CartLine.quantity line) (Product.stockQuantity product))
        as [Hle|Hgt].
      * destruct (Z.ltb_spec (Product.stockQuantity product) (CartLine.quantity line));
          [lia|].
        destruct (IH (lineItems ++ [line_item product None line])
                     (Js.add subtotal (Js.mul (Js.toNumber (unit_price product None))
                                          (Js.of_Z (CartLine.quantity line))))) as [IH1 IH2].
        split; [by rewrite IH1|].
        intros l' s' Hv. destruct (IH2 _ _ Hv) as (added & -> & Hq & Hn).
        exists (line_item product None line :: added).
        rewrite <- app_assoc. simpl. by rewrite Hq, Hn, Hp.
      * destruct (Z.ltb_spec (Product.stockQuantity product) (CartLine.quantity line));
          [|lia].
        split; [|done]. split; [by intros [? ?]|done].
Qed.

End CheckoutValidation.

Section CheckoutErrors.

Import Checkout.

(** Lines that pass only move the accumulators. *)
Lemma validate_lines_skip_passing fetched pre rest :
  forallb (line_passes fetched) pre = true →
  ∀ lineItems subtotal,
    ∃ lineItems' subtotal',
      validate_lines fetched (pre ++ rest) lineItems subtotal
      = validate_lines fetched rest lineItems' subtotal'.
Proof.
  induction pre as [|line pre IH]; intros Hpre lineItems subtotal; [by eauto|].
  cbn [forallb] in Hpre. apply andb_true_iff in Hpre as [Hline Hpre].
  cbn [app validate_lines]. unfold line_passes in Hline.
  destruct (find_product fetched (CartLine.productId line)) as [product|]; [|done].
  destruct (truthy (CartLine.variantId line)) as [variantId|].
  - destruct (find_variant product variantId) as [v|]; [|done].
    cbn [available_stock]. apply Z.leb_le in Hline.
    destruct (Z.gtb_spec (CartLine.quantity line) (Variant.stockQuantity v)); [lia|].
    apply IH, Hpre.
  - cbn [available_stock]. apply Z.leb_le in Hline.
    destruct (Z.gtb_spec (CartLine.quantity line) (Product.stockQuantity product)); [lia|].
    apply IH, Hpre.
Qed.

(** X13. The first line that fails decides the answer of the loop.  If the
    lines before it pass and its product was fetched, then a specified
    variant that the product does not have gives "Product variant <id> not
    found", and a quantity above the stock of the resolved variant (or of
    the product, when no variant is specified) gives "Insufficient stock for
    <product name>"; the lines after it are not looked at. *)
Theorem first_failing_line_decides fetched pre line post product lineItems subtotal :
  forallb (line_passes fetched) pre = true →
  find_product fetched (CartLine.productId line) = Some product →
  (∀ variantId,
      truthy (CartLine.variantId line) = Some variantId →
      find_variant product variantId = None →
      validate_lines fetched (pre ++ line :: post) lineItems subtotal
      = inl (bad_request ("Product variant " +:+ variantId +:+ " not found")))
  ∧ (∀ variant,
        match truthy (CartLine.variantId line) with
        | Some variantId => find_variant product variantId = Some variant
        | None => True
        end →
        available_stock product
          (match truthy (CartLine.variantId line) with
           | Some _ => Some variant
           | None => None
           end) < CartLine.quantity line →
        validate_lines fetched (pre ++ line :: post) lineItems subtotal
        = inl (bad_request ("Insufficient stock for " +:+ Product.name product))).
Proof.
  intros Hpre Hp.
  destruct (validate_lines_skip_passing fetched pre (line :: post) Hpre lineItems subtotal)
    as (li & s & ->).
  cbn [validate_lines]. rewrite Hp. split.
  - intros variantId -> ->. done.
  - intros variant Hv Hstock.
    destruct (truthy (CartLine.variantId line)) as [variantId|].
    + rewrite Hv.
      by destruct (Z.gtb_spec (CartLine.quantity line)
                              (available_stock product (Some variant))); [|lia].
    + by destruct (Z.gtb_spec (CartLine.quantity line)
                              (available_stock product None)); [|lia].
Qed.

(** One small lehenga passes; five sarees against three in stock do not. *)
Lemma first_failing_line_decides_witness :
  validate_lines (product_findMany Samples.shop ["p-lehenga"; "p-saree"])
                 ([Samples.line "p-lehenga" (Some "v-s") 1]
                  ++ Samples.line "p-saree" None 5 :: [])
                 [] Js.zero
  = inl (bad_request ("Insufficient stock for " +:+ "Silk Saree")).
Proof.
  refine (proj2 (first_failing_line_decides
                   (product_findMany Samples.shop ["p-lehenga"; "p-saree"])
                   [Samples.line "p-lehenga" (Some "v-s") 1]
                   (Samples.line "p-saree" None 5) []
                   (with_includes Samples.saree) [] Js.zero _ _)
                {| Variant.id := "v-s"; Variant.sku := "LEH-1-S"; Variant.price := 70%Q;
                   Variant.stockQuantity := 5 |} _ _).
  - reflexivity.
  - reflexivity.
  - exact I.
  - simpl. lia.
Defined.

End CheckoutErrors.

Section CheckoutWrites.

Import Checkout.

Lemma order_items_of_passing_lines fetched lines :
  forallb (line_passes fetched) lines = true →
  ∃ orderItems, mapM (order_item fetched) lines = Some orderItems.
Proof.
  induction lines as [|line lines IH]; [by eexists|].
  cbn [forallb]. intros [Hline Hrest]%andb_true_iff.
  destruct (IH Hrest) as (rest & Hmap).
  unfold line_passes in Hline.
  destruct (find_product fetched (CartLine.productId line)) as [product|] eqn:Hp; [|done].
  assert (is_Some (order_item fetched line)) as [oi Hoi].
  { unfold order_item. rewrite Hp. by eexists. }
  exists (oi :: rest). simpl. by rewrite Hoi, Hmap.
Qed.

(** X14. Once a cart has passed validation, the order is written before
    the payment provider is called, and what follows depends only on the
    provider and on the link-back.  The order is PENDING/PENDING, numbered
    "GD" followed by the clock reading taken before the write, without a
    payment reference; the session is requested for that order id and number
    and expires 30 minutes after a second clock reading, taken once the
    order is written; it carries a shipping line exactly when the shipping
    cost at the subtotal, a double, is above 0.  If the provider throws, the
    answer is 500 and
    the order stays as written; if the link-back throws, the answer is 500
    and the order stays without the payment reference; otherwise the answer
    is 200 and the order carries the session id. *)
Theorem checkout_once_validated env request db session payload lines id :
  getServerSession env = inr session →
  json request = inr payload →
  items payload = Some lines →
  lines ≠ [] →
  product_findMany_fault env = None →
  length (product_findMany db (map CartLine.productId lines)) = length lines →
  forallb (line_passes (product_findMany db (map CartLine.productId lines))) lines = true →
  order_create_id env = inr id →
  Forall (λ o, Order.id o ≠ id ∧ Order.orderNumber o ≠ "GD" +:+ pretty (now env))
         (orders db) →
  ∃ order params lineItems subtotal,
    validate_lines (product_findMany db (map CartLine.productId lines)) lines [] Js.zero
    = inr (lineItems, subtotal)
    ∧ Order.id order = id
    ∧ Order.orderNumber order = "GD" +:+ pretty (now env)
    ∧ Order.status order = OrderStatus.PENDING
    ∧ Order.paymentStatus order = PaymentStatus.PENDING
    ∧ Order.stripePaymentId order = None
    ∧ SessionParams.orderId params = id
    ∧ SessionParams.orderNumber params = "GD" +:+ pretty (now env)
    ∧ SessionParams.expires_at params = now_after_create env / 1000 + 1800
    ∧ SessionParams.line_items params
      = (if Js.gt (shipping_cost subtotal) Js.zero
         then lineItems ++ [shipping_line_item (shipping_cost subtotal)]
         else lineItems)
    ∧ POST env request db
      = match stripe_sessions_create env params with
        | inl e =>
            {| response := {| status := 500; body := ErrorBody (caught_message e) |};
               db_after := {| products := products db; orders := orders db ++ [order] |};
               logged := [e] |}
        | inr checkoutSession =>
            match order_update_fault env with
            | Some e =>
                {| response := {| status := 500; body := ErrorBody (caught_message e) |};
                   db_after := {| products := products db;
                                  orders := orders db ++ [order] |};
                   logged := [e] |}
            | None =>
                {| response :=
                     {| status := 200;
                        body := SessionBody (StripeSession.id checkoutSession)
                                            (StripeSession.url checkoutSession) id |};
                   db_after :=
                     {| products := products db;
                        orders := orders db
                                  ++ [set_stripePaymentId (StripeSession.id checkoutSession)
                                                          order] |};
                   logged := [] |}
            end
        end.
Proof.
  intros Hs Hj Hi Hne Hf Hlen Hpass Hid Hfresh.
  destruct (proj2 (proj1 (validate_lines_passes_iff _ lines [] Js.zero)) Hpass)
    as ([lineItems subtotal] & Hvalid).
  destruct (order_items_of_passing_lines _ _ Hpass) as (orderItems & Hitems).
  exists {| Order.id := id;
            Order.orderNumber := "GD" +:+ pretty (now env);
            Order.userId := session ≫= user_id;
            Order.status := OrderStatus.PENDING;
            Order.paymentStatus := PaymentStatus.PENDING;
            Order.subtotal := subtotal;
            Order.taxAmount := Js.zero;
            Order.shippingAmount := shipping_cost subtotal;
            Order.discountAmount := Js.zero;
            Order.totalAmount := Js.add subtotal (shipping_cost subtotal);
            Order.stripePaymentId := None;
            Order.shippingAddress := shippingAddress payload;
            Order.billingAddress := billingAddress payload;
            Order.customerNotes := customerNotes payload;
            Order.items := orderItems |},
         {| SessionParams.line_items :=
              if Js.gt (shipping_cost subtotal) Js.zero
              then lineItems ++ [shipping_line_item (shipping_cost subtotal)]
              else lineItems;
            SessionParams.customer_email := truthy (session ≫= user_email);
            SessionParams.orderId := id;
            SessionParams.orderNumber := "GD" +:+ pretty (now env);
            SessionParams.expires_at :=
              Math_floor_div (now_after_create env) 1000 + 30 * 60 |},
         lineItems, subtotal.
  split; [exact Hvalid|].
  repeat (split; [reflexivity|]).
  unfold POST, attempt. rewrite Hs, Hj, Hi, Hf.
  destruct (Nat.eqb_spec (length lines) 0) as [Hnil|_].
  { by destruct lines. }
  rewrite length_map, Hlen, Nat.eqb_refl. cbv [negb].
  rewrite Hvalid, Hitems.
  unfold order_create. rewrite Hid.
  assert (existsb (λ o, String.eqb (Order.id o) id
                        || String.eqb (Order.orderNumber o) ("GD" +:+ pretty (now env)))
                  (orders db) = false) as Hex.
  { clear -Hfresh. induction Hfresh as [|o l [Ho1 Ho2] _ IH]; simpl; [done|].
    rewrite IH.
    by destruct (String.eqb_spec (Order.id o) id),
                (String.eqb_spec (Order.orderNumber o) ("GD" +:+ pretty (now env))). }
  cbn [Order.orderNumber]. rewrite Hex. cbn [Order.id Order.orderNumber].
  assert (Forall (λ o, String.eqb (Order.id o) id = false) (orders db)) as Hids.
  { eapply Forall_impl; [exact Hfresh|]. intros o [Ho _]. simpl.
    by destruct (String.eqb_spec (Order.id o) id). }
  destruct (stripe_sessions_create env _) as [e|checkoutSession]; [reflexivity|].
  unfold order_update. destruct (order_update_fault env) as [e|]; [reflexivity|].
  cbn [orders products].
  rewrite existsb_app. cbn [existsb Order.id]. rewrite String.eqb_refl, orb_true_r.
  cbn [orb]. rewrite map_app, map_untouched_orders by done.
  cbn [map Order.id]. by rewrite String.eqb_refl.
Qed.

Lemma checkout_once_validated_witness :
  ∃ order params lineItems subtotal,
    validate_lines (product_findMany Samples.shop
                      (map CartLine.productId [Samples.line "p-saree" None 2]))
                   [Samples.line "p-saree" None 2] [] Js.zero
    = inr (lineItems, subtotal)
    ∧ Order.id order = "order-1"
    ∧ Order.orderNumber order = "GD" +:+ pretty (now Samples.provider_down)
    ∧ Order.status order = OrderStatus.PENDING
    ∧ Order.paymentStatus order = PaymentStatus.PENDING
    ∧ Order.stripePaymentId order = None
    ∧ SessionParams.orderId params = "order-1"
    ∧ SessionParams.orderNumber params = "GD" +:+ pretty (now Samples.provider_down)
    ∧ SessionParams.expires_at params = now_after_create Samples.provider_down / 1000 + 1800
    ∧ SessionParams.line_items params
      = (if Js.gt (shipping_cost subtotal) Js.zero
         then lineItems ++ [shipping_line_item (shipping_cost subtotal)]
         else lineItems)
    ∧ POST Samples.provider_down (Samples.request_of [Samples.line "p-saree" None 2])
           Samples.shop
      = match stripe_sessions_create Samples.provider_down params with
        | inl e =>
            {| response := {| status := 500; body := ErrorBody (caught_message e) |};
               db_after := {| products := products Samples.shop;
                              orders := orders Samples.shop ++ [order] |};
               logged := [e] |}
        | inr checkoutSession =>
            match order_update_fault Samples.provider_down with
            | Some e =>
                {| response := {| status := 500; body := ErrorBody (caught_message e) |};
                   db_after := {| products := products Samples.shop;
                                  orders := orders Samples.shop ++ [order] |};
                   logged := [e] |}
            | None =>
                {| response :=
                     {| status := 200;
                        body := SessionBody (StripeSession.id checkoutSession)
                                            (StripeSession.url checkoutSession) "order-1" |};
                   db_after :=
                     {| products := products Samples.shop;
                        orders := orders Samples.shop
                                  ++ [set_stripePaymentId (StripeSession.id checkoutSession)
                                                          order] |};
                   logged := [] |}
            end
        end.
Proof.
  eapply (checkout_once_validated Samples.provider_down
            (Samples.request_of [Samples.line "p-saree" None 2]) Samples.shop
            None _ [Samples.line "p-saree" None 2] "order-1"); try reflexivity.
  - discriminate.
  - constructor.
Defined.

End CheckoutWrites.

Section CheckoutFrame.

Import Checkout.

(** The database after the [try] block is the database before it with at
    most one order appended, and the appended order goes with the way the
    block ended. *)
Lemma attempt_frame env request db :
  ∃ added,
    (attempt env request db).2
    = {| products := products db; orders := orders db ++ added |}
    ∧ match (attempt env request db).1, added with
      | inr r, [] => status r = 400
      | inr r, [o] =>
          status r = 200
          ∧ Order.status o = OrderStatus.PENDING
          ∧ Order.paymentStatus o = PaymentStatus.PENDING
          ∧ is_Some (Order.stripePaymentId o)
      | inl _, [] => True
      | inl _, [o] =>
          Order.status o = OrderStatus.PENDING
          ∧ Order.paymentStatus o = PaymentStatus.PENDING
          ∧ Order.stripePaymentId o = None
      | _, _ => False
      end.
Proof.
  assert (db = {| products := products db; orders := orders db ++ [] |}) as Hdb.
  { destruct db. simpl. by rewrite app_nil_r. }
  unfold attempt.
  destruct (getServerSession env) as [e|session]; [by exists []|].
  destruct (json request) as [e|payload]; [by exists []|].
  destruct (items payload) as [lines|]; [|by exists []].
  destruct (length lines =? 0)%nat; [by exists []|].
  destruct (product_findMany_fault env) as [e|]; [by exists []|].
  destruct (negb _); [by exists []|].
  destruct (validate_lines _ lines [] Js.zero) as [r|[lineItems subtotal]] eqn:Hvalid.
  { exists []. split; [done|]. simpl. by eapply validate_lines_early. }
  destruct (mapM _ lines) as [orderItems|]; [|by exists []].
  destruct (order_create env db _) as [e|[order db1]] eqn:Hcreate; [by exists []|].
  apply order_create_inv in Hcreate as (id & Hid & -> & -> & Hfresh).
  simpl.
  destruct (stripe_sessions_create env _) as [e|checkoutSession]; simpl.
  { eexists [_]. by repeat split. }
  destruct (order_update env _ id _) as [e|db2] eqn:Hupdate; simpl.
  { eexists [_]. by repeat split. }
  apply order_update_inv in Hupdate as ->. simpl.
  rewrite map_app, map_untouched_orders by done. simpl. rewrite String.eqb_refl.
  eexists [_]. by repeat split.
Qed.

(** X15. Whatever the request and whatever fails, the endpoint leaves the
    products and every existing order as they were and adds at most one
    order, which is PENDING with payment PENDING.  That order carries a
    payment reference when the answer is 200 and none when the answer is
    500; a 400 adds nothing. *)
Theorem POST_adds_at_most_one_pending_order env request db :
  products (db_after (POST env request db)) = products db
  ∧ ∃ added,
      orders (db_after (POST env request db)) = orders db ++ added
      ∧ (length added ≤ 1)%nat
      ∧ Forall (λ o, Order.status o = OrderStatus.PENDING
                     ∧ Order.paymentStatus o = PaymentStatus.PENDING) added
      ∧ (status (response (POST env request db)) = 200 →
         ∃ o sessionId, added = [o] ∧ Order.stripePaymentId o = Some sessionId)
      ∧ (status (response (POST env request db)) = 400 → added = [])
      ∧ (status (response (POST env request db)) = 500 →
         Forall (λ o, Order.stripePaymentId o = None) added).
Proof.
  destruct (attempt_frame env request db) as (added & Hdb & Hcase).
  unfold POST. destruct (attempt env request db) as [[e|r] db']; simpl in *; subst db'.
  - split; [done|]. exists added. destruct added as [|o [|]]; try done; simpl.
    + repeat split; try done; try lia; constructor.
    + destruct Hcase as (? & ? & ?). repeat split; try done; try lia; by repeat constructor.
  - split; [done|]. exists added. destruct added as [|o [|]]; try done; simpl.
    + rewrite Hcase. repeat split; try done; try lia; constructor.
    + destruct Hcase as (-> & ? & ? & [sid ?]).
      repeat split; try done; try lia; try by repeat constructor.
      intros _. by exists o, sid.
Qed.

End CheckoutFrame.


(** ** Catalog endpoint: price filter, shaping and pagination *)

Section CatalogShaping.

Import Catalog CatalogShape.

(** X17. With numeric bounds, the two fragments the endpoint builds for the
    price range select exactly the rows whose effective price (the sale
    price when there is one, else the base price) is at least [minPrice]
    and at most [maxPrice]; an omitted bound imposes nothing. *)
Theorem price_range_is_effective_price (row : Row) (lo hi : option Q) :
  forallb (holds row) (price_range (Finite <$> lo) (Finite <$> hi)) = true
  ↔ (∀ m, lo = Some m → (m <= effectivePrice row)%Q)
    ∧ (∀ m, hi = Some m → (effectivePrice row <= m)%Q).
Proof.
  assert (∀ m, holds row (OR [gte salePrice_field (Finite m);
                              AND [is_null salePrice_field;
                                   gte basePrice_field (Finite m)]]) = true
               ↔ (m <= effectivePrice row)%Q) as Hmin.
  { intros m. unfold effectivePrice. destruct row as [base [sale|] rs]; simpl.
    - by rewrite !orb_false_r, Qle_bool_iff.
    - by rewrite andb_true_r, orb_false_r, Qle_bool_iff. }
  assert (∀ m, holds row (OR [lte salePrice_field (Finite m);
                              AND [is_null salePrice_field;
                                   lte basePrice_field (Finite m)]]) = true
               ↔ (effectivePrice row <= m)%Q) as Hmax.
  { intros m. unfold effectivePrice. destruct row as [base [sale|] rs]; simpl.
    - by rewrite !orb_false_r, Qle_bool_iff.
    - by rewrite andb_true_r, orb_false_r, Qle_bool_iff. }
  unfold price_range.
  destruct lo as [l|], hi as [h|]; cbn [fmap option_fmap option_map app forallb];
    rewrite ?andb_true_r, ?andb_true_iff, ?Hmin, ?Hmax.
  - split; [intros [? ?]; split; by intros ? [= <-]|]. intros [H1 H2]. auto.
  - split; [intros ?; split; [by intros ? [= <-]|done]|]. intros [H1 _]. auto.
  - split; [intros ?; split; [done|by intros ? [= <-]]|]. intros [_ H2]. auto.
  - split; [done|]. by intros _.
Qed.

Lemma Qfloor_half (z : Z) : Qfloor (inject_Z z + (1 # 2)) = z.
Proof.
  unfold Qfloor, Qplus, inject_Z. simpl.
  symmetry. apply (Z.div_unique_pos _ _ z 1); lia.
Qed.

(** [Math.round] stays between integer bounds of its argument. *)
Lemma Math_round_between (lo hi : Z) (x : Q) :
  (inject_Z lo <= x)%Q → (x <= inject_Z hi)%Q →
  lo ≤ Checkout.Math_round x ∧ Checkout.Math_round x ≤ hi.
Proof.
  intros Hlo Hhi. unfold Checkout.Math_round. split.
  - rewrite <- (Qfloor_half lo). apply Qfloor_resp_le. lra.
  - rewrite <- (Qfloor_half hi). apply Qfloor_resp_le. lra.
Qed.

Lemma sum_ratings_between (lo hi : Z) (rs : list Z) (acc : Z) :
  Forall (λ r, lo ≤ r ∧ r ≤ hi) rs →
  acc + lo * Z.of_nat (length rs) ≤ fold_left (λ sum rating, sum + rating) rs acc
  ∧ fold_left (λ sum rating, sum + rating) rs acc ≤ acc + hi * Z.of_nat (length rs).
Proof.
  intros H. revert acc. induction H as [|r rs [Hlo Hhi] _ IH]; intros acc.
  - simpl. lia.
  - cbn [fold_left length]. destruct (IH (acc + r)) as [IH1 IH2]. lia.
Qed.

(** X19. The average rating of a product without reviews is 0; with
    reviews whose ratings all lie between two whole numbers, the rounded
    average lies between them too. *)
Theorem averageRating_between (row : Row) (lo hi : Z) :
  Forall (λ r, lo ≤ r ∧ r ≤ hi) (ratings row) →
  (ratings row = [] → (averageRating row == 0)%Q)
  ∧ (ratings row ≠ [] →
     (inject_Z lo <= averageRating row)%Q ∧ (averageRating row <= inject_Z hi)%Q).
Proof.
  intros Hall. unfold averageRating. split.
  - intros ->. by compute.
  - intros Hne.
    assert (0 < Z.of_nat (length (ratings row))) as Hn.
    { destruct (ratings row); [done|]. simpl. lia. }
    assert ((0 <? length (ratings row))%nat = true) as ->.
    { apply Nat.ltb_lt. lia. }
    destruct (sum_ratings_between lo hi (ratings row) 0 Hall) as [Hlo Hhi].
    set (n := Z.of_nat (length (ratings row))) in *.
    set (total := fold_left (λ sum rating, sum + rating) (ratings row) 0) in *.
    set (average := (inject_Z total / inject_Z n)%Q).
    assert (0 < inject_Z n)%Q as Hnq.
    { change 0%Q with (inject_Z 0). rewrite <- Zlt_Qlt. exact Hn. }
    assert (inject_Z lo <= average)%Q as Ha1.
    { subst average. apply Qle_shift_div_l; [done|].
      rewrite <- inject_Z_mult. rewrite <- Zle_Qle. lia. }
    assert (average <= inject_Z hi)%Q as Ha2.
    { subst average. apply Qle_shift_div_r; [done|].
      rewrite <- inject_Z_mult. rewrite <- Zle_Qle. lia. }
    clearbody average.
    destruct (Math_round_between (lo * 10) (hi * 10) (average * 10)%Q) as [Hr1 Hr2].
    { rewrite inject_Z_mult. change (inject_Z 10) with 10%Q. lra. }
    { rewrite inject_Z_mult. change (inject_Z 10) with 10%Q. lra. }
    rewrite Zle_Qle, inject_Z_mult in Hr1, Hr2.
    split.
    + apply Qle_shift_div_l; [by compute|]. exact Hr1.
    + apply Qle_shift_div_r; [by compute|]. exact Hr2.
Qed.

Lemma averageRating_between_witness :
  (ratings MoreSamples.reviewed = [] → (averageRating MoreSamples.reviewed == 0)%Q)
  ∧ (ratings MoreSamples.reviewed ≠ [] →
     (inject_Z 1 <= averageRating MoreSamples.reviewed)%Q
     ∧ (averageRating MoreSamples.reviewed <= inject_Z 5)%Q).
Proof.
  apply (averageRating_between MoreSamples.reviewed 1 5).
  repeat constructor; simpl; lia.
Defined.

End CatalogShaping.

Section CatalogPagination.

Import CatalogShape.

(** The spec's own samples: 25 percent off, and 4.3 stars for 5, 4, 4. *)
Example shaping_samples :
  discountPercentage MoreSamples.discounted = Js.of_Z 25
  ∧ discountPercentage MoreSamples.marked_down = Js.of_Z 19
  ∧ (averageRating MoreSamples.reviewed == 4.3)%Q.
Proof. by repeat split; vm_compute. Qed.

(** [Math.ceil] of a quotient of whole numbers, the divisor positive. *)
Lemma Qceiling_quotient (a b : Z) :
  0 < b → Qceiling (inject_Z a / inject_Z b) = - ((- a) / b).
Proof.
  intros Hb. destruct b as [|p|p]; try lia.
  rewrite <- (Qceiling_comp _ _ (Qmake_Qdiv a p)).
  reflexivity.
Qed.

(** X20. For a page size of at least 1 and a non-negative total count, the
    page count is the least number of pages that hold all rows, and a next
    page is announced exactly when rows remain after the rows skipped and
    the rows of the current page. *)
Theorem pagination_counts (page limit totalCount : Z) :
  1 ≤ limit → 0 ≤ totalCount →
  (totalPages (pagination page limit totalCount) - 1) * limit < totalCount
  ∧ totalCount ≤ totalPages (pagination page limit totalCount) * limit
  ∧ (hasNextPage (pagination page limit totalCount) = true
     ↔ skip page limit + limit < totalCount)
  ∧ (totalCount = 0 → totalPages (pagination page limit totalCount) = 0).
Proof.
  intros Hlimit Hcount. unfold pagination, skip. simpl.
  rewrite Qceiling_quotient by lia.
  pose proof (Z.div_mod (- totalCount) limit ltac:(lia)) as Hdiv.
  pose proof (Z.mod_pos_bound (- totalCount) limit ltac:(lia)) as Hmod.
  set (q := (- totalCount) / limit) in *.
  set (r := (- totalCount) mod limit) in *.
  rewrite Z.ltb_lt.
  repeat split; try nia.
Qed.

Lemma pagination_counts_witness :
  (totalPages (pagination 2 12 30) - 1) * 12 < 30
  ∧ 30 ≤ totalPages (pagination 2 12 30) * 12
  ∧ (hasNextPage (pagination 2 12 30) = true ↔ skip 2 12 + 12 < 30)
  ∧ (30 = 0 → totalPages (pagination 2 12 30) = 0).
Proof.
  apply (pagination_counts 2 12 30); lia.
Defined.

End CatalogPagination.

(** ** Hero carousel *)

Section HeroCarousel.

Import Hero.

Lemma in_range_cases (c : Z) :
  0 ≤ c ∧ c < heroSlides_length → c = 0 ∨ c = 1 ∨ c = 2.
Proof. unfold heroSlides_length. lia. Qed.

(** X21. A slide index that points into [heroSlides] still does after
    [nextSlide], after [prevSlide] and after a firing of the auto-advance
    interval; [goToSlide] keeps it so when called with an index of the
    slide indicators.  A navigation always pauses auto-play and schedules its
    resumption after 10000 ms. *)
Theorem slide_index_stays_in_range (s : State) :
  in_range s →
  in_range (nextSlide s).1
  ∧ in_range (prevSlide s).1
  ∧ in_range (autoAdvance s)
  ∧ in_range (resumeAutoPlay s)
  ∧ (∀ index, 0 ≤ index < heroSlides_length → in_range (goToSlide index s).1)
  ∧ isAutoPlaying (nextSlide s).1 = false
  ∧ isAutoPlaying (prevSlide s).1 = false
  ∧ (nextSlide s).2 = [ResumeAutoPlayAfter 10000]
  ∧ (prevSlide s).2 = [ResumeAutoPlayAfter 10000].
Proof.
  intros Hs. unfold in_range in *.
  destruct s as [c auto]. simpl in *.
  repeat split; try done;
    try (destruct (in_range_cases c Hs) as [->|[->| ->]]; vm_compute; congruence);
    try (destruct auto; simpl;
         destruct (in_range_cases c Hs) as [->|[->| ->]]; vm_compute; congruence);
    try lia.
Qed.

Lemma slide_index_stays_in_range_witness :
  in_range (nextSlide {| currentSlide := 2; isAutoPlaying := true |}).1.
Proof.
  refine (proj1 (slide_index_stays_in_range
                   {| currentSlide := 2; isAutoPlaying := true |} _)).
  unfold in_range, heroSlides_length. simpl. lia.
Defined.

(** X22. On a slide index that points into [heroSlides], going to the next
    slide and back (or back and then next) returns to the same slide, the
    last slide is followed by the first and the first preceded by the last,
    and three steps forward come back to the start. *)
Theorem next_and_prev_are_inverse (s : State) :
  in_range s →
  currentSlide (prevSlide (nextSlide s).1).1 = currentSlide s
  ∧ currentSlide (nextSlide (prevSlide s).1).1 = currentSlide s
  ∧ currentSlide (nextSlide (nextSlide (nextSlide s).1).1).1 = currentSlide s
  ∧ (currentSlide s = heroSlides_length - 1 → currentSlide (nextSlide s).1 = 0)
  ∧ (currentSlide s = 0 → currentSlide (prevSlide s).1 = heroSlides_length - 1).
Proof.
  intros Hs. destruct s as [c auto].
  destruct (in_range_cases c Hs) as [->|[->| ->]]; vm_compute; repeat split; congruence.
Qed.

Lemma next_and_prev_are_inverse_witness :
  currentSlide (prevSlide (nextSlide {| currentSlide := 2; isAutoPlaying := true |}).1).1
  = 2.
Proof.
  refine (proj1 (next_and_prev_are_inverse
                   {| currentSlide := 2; isAutoPlaying := true |} _)).
  unfold in_range, heroSlides_length. simpl. lia.
Defined.

End HeroCarousel.

(** ** Checkout endpoint: what the count check guarantees *)

Section CheckoutCounts.

Import Checkout.

Lemma product_findMany_ids db productIds :
  NoDup (map Product.id (products db)) →
  NoDup (map Product.id (product_findMany db productIds))
  ∧ ∀ x, x ∈ map Product.id (product_findMany db productIds) → x ∈ productIds.
Proof.
  intros Hnd. unfold product_findMany. rewrite map_map. simpl.
  induction (products db) as [|p l IH]; simpl.
  - split; [constructor|]. intros x Hx. by apply elem_of_nil in Hx.
  - apply NoDup_cons in Hnd as [Hp Hl]. destruct (IH Hl) as [IH1 IH2].
    destruct (bool_decide (Product.id p ∈ productIds) && Product.isActive p) eqn:E;
      [|done].
    apply andb_true_iff in E as [E _]. apply bool_decide_eq_true in E.
    simpl. split.
    + apply NoDup_cons. split; [|done]. intros Hin. apply Hp.
      apply list_elem_of_fmap in Hin as (y & Hy & Hin).
      apply list_elem_of_In, filter_In in Hin as [Hin _].
      apply list_elem_of_fmap. exists y. split; [done|]. by apply list_elem_of_In.
    + intros x Hx. apply elem_of_cons in Hx as [->|Hx]; auto.
Qed.

Lemma find_is_Some {A : Type} (p : A → bool) (l : list A) (x : A) :
  x ∈ l → p x = true → is_Some (Cart.find p l).
Proof.
  induction 1 as [y l|y z l _ IH]; intros Hp; simpl.
  - rewrite Hp. by eexists.
  - destruct (p z); [by eexists|]. by apply IH.
Qed.

(** X23. With unique product ids in the catalog, a cart that gets past the
    count check (as many products fetched as lines submitted) has pairwise
    distinct product ids, and the product of every one of its lines is among
    the fetched ones: the loop's "Product ... not found" answer cannot occur
    for it. *)
Theorem count_check_implies_every_product_fetched db lines :
  NoDup (map Product.id (products db)) →
  length (product_findMany db (map CartLine.productId lines)) = length lines →
  NoDup (map CartLine.productId lines)
  ∧ Forall (λ line,
            is_Some (find_product (product_findMany db (map CartLine.productId lines))
                                  (CartLine.productId line)))
           lines.
Proof.
  intros Hcat Hlen.
  destruct (product_findMany_ids db (map CartLine.productId lines) Hcat) as [Hnd Hsub].
  assert (map Product.id (product_findMany db (map CartLine.productId lines))
          ≡ₚ map CartLine.productId lines) as Hperm.
  { apply submseteq_length_Permutation.
    - by apply NoDup_submseteq.
    - rewrite !length_map. lia. }
  split.
  - by rewrite <- Hperm.
  - apply Forall_forall. intros line Hline.
    assert (CartLine.productId line
            ∈ map Product.id (product_findMany db (map CartLine.productId lines))) as Hin.
    { rewrite Hperm. apply list_elem_of_fmap. eauto. }
    apply list_elem_of_fmap in Hin as (product & Hid & Hproduct).
    eapply find_is_Some; [exact Hproduct|].
    simpl. rewrite Hid. apply String.eqb_refl.
Qed.

Lemma count_check_implies_every_product_fetched_witness :
  NoDup (map CartLine.productId [Samples.line "p-lehenga" (Some "v-s") 1;
                                 Samples.line "p-saree" None 2])
  ∧ Forall (λ line,
            is_Some (find_product
                       (product_findMany Samples.shop
                          (map CartLine.productId [Samples.line "p-lehenga" (Some "v-s") 1;
                                                   Samples.line "p-saree" None 2]))
                       (CartLine.productId line)))
           [Samples.line "p-lehenga" (Some "v-s") 1; Samples.line "p-saree" None 2].
Proof.
  apply (count_check_implies_every_product_fetched Samples.shop).
  - refine (bool_decide_unpack _ _). vm_compute. exact I.
  - reflexivity.
Defined.

(** X24. The order number is "GD" followed by the clock reading in
    milliseconds and must be unique among orders: when an order with that
    number already exists, a non-empty cart that passes validation is
    answered with 500 and no order is written. *)
Theorem order_number_collision_refused env request db session payload lines :
  getServerSession env = inr session →
  json request = inr payload →
  items payload = Some lines →
  lines ≠ [] →
  product_findMany_fault env = None →
  length (product_findMany db (map CartLine.productId lines)) = length lines →
  forallb (line_passes (product_findMany db (map CartLine.productId lines))) lines = true →
  Exists (λ o, Order.orderNumber o = "GD" +:+ pretty (now env)) (orders db) →
  status (response (POST env request db)) = 500
  ∧ db_after (POST env request db) = db
  ∧ length (logged (POST env request db)) = 1%nat.
Proof.
  intros Hs Hj Hi Hne Hf Hlen Hpass Hexists.
  destruct (proj2 (proj1 (validate_lines_passes_iff _ lines [] Js.zero)) Hpass)
    as ([lineItems subtotal] & Hvalid).
  destruct (order_items_of_passing_lines _ _ Hpass) as (orderItems & Hitems).
  unfold POST, attempt. rewrite Hs, Hj, Hi, Hf.
  destruct (Nat.eqb_spec (length lines) 0) as [Hnil|_].
  { by destruct lines. }
  rewrite length_map, Hlen, Nat.eqb_refl. cbv [negb].
  rewrite Hvalid, Hitems.
  unfold order_create. destruct (order_create_id env) as [e|id]; [done|].
  cbn [Order.orderNumber].
  assert (existsb (λ o, String.eqb (Order.id o) id
                        || String.eqb (Order.orderNumber o) ("GD" +:+ pretty (now env)))
                  (orders db) = true) as ->; [|done].
  clear -Hexists. induction Hexists as [o l Ho|o l _ IH]; simpl.
  - rewrite Ho, String.eqb_refl. by rewrite orb_true_r.
  - rewrite IH. by rewrite orb_true_r.
Qed.

Lemma order_number_collision_refused_witness :
  status (response (POST Samples.calm (Samples.request_of [Samples.line "p-saree" None 2])
                         MoreSamples.busy_shop)) = 500
  ∧ db_after (POST Samples.calm (Samples.request_of [Samples.line "p-saree" None 2])
                   MoreSamples.busy_shop) = MoreSamples.busy_shop
  ∧ length (logged (POST Samples.calm (Samples.request_of [Samples.line "p-saree" None 2])
                         MoreSamples.busy_shop)) = 1%nat.
Proof.
  eapply (order_number_collision_refused Samples.calm _ MoreSamples.busy_shop);
    try reflexivity.
  - discriminate.
  - constructor. reflexivity.
Defined.

End CheckoutCounts.
